(** * Custom-resource lifecycle handlers of cloudcomponents-cdk-constructs

    A shallow embedding of the three Lambda handlers that hold the
    repository's decision logic:

    - [packages/cdk-stripe-webhook/src/lambdas/stripe-webhook/index.ts]
      (module [StripeWebhook]): create, update and delete of a Stripe
      webhook endpoint;
    - [packages/cdk-stripe-webhook/src/lambdas/stripe-event-bus-producer/index.ts]
      (module [EventBusProducer]): the API Gateway handler that verifies a
      Stripe webhook and forwards it to EventBridge;
    - [packages/cdk-lambda-at-edge-pattern/src/lambdas/with-configuration/index.ts]
      (module [WithConfiguration]): injection of a configuration file into
      a Lambda function, followed by a wait for the function to go active.

    Every handler is an [async] function whose only effects are calls to
    services outside the repository.  A handler is embedded as a program
    tree [Prog] whose nodes are the JavaScript constructs the source uses
    ([await], [throw], [try]/[catch], a promise chain that is not awaited,
    reads and writes of a captured [let] variable); [run] executes such a
    tree against an arbitrary environment [Env] that answers the external
    calls, and records every settled call in a trace. *)

From stdpp Require Import gmap strings list fin_maps.
From Stdlib Require Import ZArith.

#[local] Set Warnings "-register-all".

(** ** JavaScript data *)

(** JSON-shaped values.  [undefined] is the absence of a value: a property
    that is not set is a failed lookup in the object's map. *)
Inductive value : Type :=
| VNull
| VBool (b : bool)
| VNum (n : Z)
| VStr (s : string)
| VArr (l : list value)
| VObj (o : gmap string value).

(** [!!v]: the values JavaScript treats as true in a condition. *)
Definition truthy (v : value) : bool :=
  match v with
  | VNull => false
  | VBool b => b
  | VNum n => negb (n =? 0)%Z
  | VStr s => negb (String.eqb s "")
  | VArr _ => true
  | VObj _ => true
  end.

(** Truthiness of a possibly [undefined] value. *)
Definition truthy_opt (o : option value) : bool :=
  match o with
  | Some v => truthy v
  | None => false
  end.

(** Truthiness of a possibly [undefined] string. *)
Definition truthy_str (o : option string) : bool :=
  match o with
  | Some s => negb (String.eqb s "")
  | None => false
  end.

(** A string that is neither [undefined]/[null] nor empty, i.e. one on
    which [if (!x)] does not fire. *)
Definition present (o : option string) : option string :=
  match o with
  | Some s => if String.eqb s "" then None else Some s
  | None => None
  end.

(** A JavaScript error object, with the properties the handlers read:
    [error.type] (set by the Stripe SDK only), [error.code], [error.name]
    and [error.message]. *)
Record Error : Type := mkError {
  err_name : string;
  err_type : option string;
  err_code : option string;
  err_message : string;
}.

(** [new Error(message)] *)
Definition new_Error (message : string) : Error :=
  {| err_name := "Error"; err_type := None; err_code := None; err_message := message |}.

(** [`${err}`]: [Error.prototype.toString], which gives the message
    alone when the name is empty, the name alone when the message is
    empty, and [name: message] otherwise. *)
Definition Error_toString (e : Error) : string :=
  if String.eqb (err_name e) "" then err_message e
  else if String.eqb (err_message e) "" then err_name e
  else err_name e +:+ ": " +:+ err_message e.

(** ** Calls to the outside *)

(** [{ url, description, enabled_events: events }] *)
Record WebhookParams : Type := {
  wp_url : string;
  wp_description : option string;
  wp_enabled_events : list string;
}.

(** One entry of [PutEventsCommandInput.Entries]. *)
Record PutEventsEntry : Type := {
  Detail : string;
  DetailType : option value;
  EventBusName : string;
  Resources : list string;
  Source : option string;
}.

(** The output of [UpdateFunctionCodeCommand], as far as it is read. *)
Record UpdateFunctionCodeOutput : Type := {
  CodeSha256 : option string;
  Version : option string;
  FunctionArn : option string;
}.

(** The operations of the SDKs and of Node that a handler invokes, each
    with the arguments and the client configuration the source passes. *)
Inductive Call : Type :=
(* @cloudcomponents/lambda-utils *)
| SecretKey_getValue (secretKeyString : string) (maxAttempts : Z)
| SecretKeyStore_putSecret (storeString : string) (maxAttempts : Z) (secret : value)
(* stripe *)
| webhookEndpoints_create (apiKey : string) (params : WebhookParams) (maxNetworkRetries : Z)
| webhookEndpoints_update (apiKey : string) (id : string) (params : WebhookParams)
    (maxNetworkRetries : Z)
| webhookEndpoints_del (apiKey : string) (id : string) (maxNetworkRetries : Z)
| webhooks_constructEvent (apiKey : string) (body signature endpointSecret : string)
(* @aws-sdk/client-eventbridge *)
| eventBridge_PutEvents (Entries : list PutEventsEntry)
(* @aws-sdk/client-lambda *)
| lambda_GetFunction (region functionName : string)
| lambda_UpdateFunctionCode (region functionName : string) (ZipFile : string) (Publish : bool)
| waitUntilFunctionActiveV2 (region : string) (maxWaitTime : Z) (functionName : string)
(* axios, fs, adm-zip *)
| axios_get (location : string)
| mkdtempSync (prefix : string)
| Zip_extractAllTo (data : string) (targetPath : string)
| writeFileSync (file : string) (content : string)
| Zip_addLocalFolder_toBuffer (localPath : string).

(** What a call evaluates to when it does not throw. *)
Definition ret_type (c : Call) : Type :=
  match c with
  | SecretKey_getValue _ _ => string
  | SecretKeyStore_putSecret _ _ _ => unit
  | webhookEndpoints_create _ _ _ => gmap string value
  | webhookEndpoints_update _ _ _ _ => gmap string value
  | webhookEndpoints_del _ _ _ => gmap string value
  | webhooks_constructEvent _ _ _ _ => gmap string value
  | eventBridge_PutEvents _ => unit
  | lambda_GetFunction _ _ => option string       (* [Code?.Location] *)
  | lambda_UpdateFunctionCode _ _ _ _ => UpdateFunctionCodeOutput
  | waitUntilFunctionActiveV2 _ _ _ => string     (* the waiter's result *)
  | axios_get _ => string
  | mkdtempSync _ => string
  | Zip_extractAllTo _ _ => unit
  | writeFileSync _ _ => unit
  | Zip_addLocalFolder_toBuffer _ => string
  end.

(** A settled call: what was asked and how it ended. *)
Record Entry : Type := mkEntry {
  ecall : Call;
  eresult : Error + ret_type ecall;
}.

Definition entry_ok (en : Entry) : bool :=
  match eresult en with inr _ => true | inl _ => false end.

(** ** Programs *)

(** The body of an [async] function.  [S] is the type of the [let]
    variable that the function's callbacks capture (the handlers have at
    most one).  [Await] also stands for a synchronous call that may throw
    ([mkdtempSync], [constructEvent]): either way the function goes on
    with the call's value or throws its error.  Calls to [console] only
    write to the log and are left out, and so is the [setTimeout] whose
    callback only logs. *)
Inductive Prog (S : Type) (A : Type) : Type :=
| Ret (a : A)                                      (* [return a] *)
| Throw (e : Error)                                (* [throw e] *)
| Await (c : Call) (k : ret_type c -> Prog S A)    (* [const x = await c; k] *)
| TryCatch (body : Prog S A) (handler : Error -> Prog S A)
| Load (k : S -> Prog S A)                         (* read the captured variable *)
| Store (s : S) (k : Prog S A)                     (* assign the captured variable *)
| Detach (chain : Prog S unit) (k : Prog S A).      (* a promise chain that is not awaited *)

Arguments Ret {S A} a.
Arguments Throw {S A} e.
Arguments Await {S A} c k.
Arguments TryCatch {S A} body handler.
Arguments Load {S A} k.
Arguments Store {S A} s k.
Arguments Detach {S A} chain k.

Notation "'await' x <- c ; k" := (Await c (fun x => k))
  (at level 10, x name, c at level 100, k at level 200).

(** The outside world: it answers each call with a value or an error and
    moves to a new state. *)
Definition Env (W : Type) : Type :=
  forall c : Call, W -> (Error + ret_type c) * W.

(** The state a program runs in. *)
Record State (W S : Type) : Type := mkState {
  world : W;
  var : S;
  trace : list Entry;
}.
Arguments mkState {W S} world var trace.
Arguments world {W S} _.
Arguments var {W S} _.
Arguments trace {W S} _.

(** [run env p st]: the value ([inr]) or the exception ([inl]) with which
    the promise of the async function settles, and the state once every
    promise chain the function started has finished.

    - [Await c k] throws when the call rejects.
    - [Detach chain k]: JavaScript runs to completion, so the reactions of
      a promise that is not awaited run only after the synchronous
      continuation [k]; the function's result is the result of [k], and
      [chain] runs afterwards on the state [k] left.  Its outcome is
      dropped, nothing waits for it.  (The one function that detaches a
      chain returns right after it, without a further [await], so this is
      the only order in which it can run.) *)
Fixpoint run {W S A} (env : Env W) (p : Prog S A) (st : State W S)
  : (Error + A) * State W S :=
  match p with
  | Ret a => (inr a, st)
  | Throw e => (inl e, st)
  | Await c k =>
      let '(r, w') := env c (world st) in
      let st' := mkState w' (var st) (trace st ++ [mkEntry c r]) in
      match r with
      | inl e => (inl e, st')
      | inr v => run env (k v) st'
      end
  | TryCatch body handler =>
      match run env body st with
      | (inl e, st') => run env (handler e) st'
      | (inr a, st') => (inr a, st')
      end
  | Load k => run env (k (var st)) st
  | Store s k => run env k (mkState (world st) s (trace st))
  | Detach chain k =>
      let '(r, st1) := run env k st in
      let '(_, st2) := run env chain st1 in
      (r, st2)
  end.

(** A fresh invocation: the trace is empty, [s] is whatever the captured
    variable holds before the function declares it. *)
Definition invoke {W S A} (env : Env W) (p : Prog S A) (w : W) (s : S)
  : (Error + A) * State W S :=
  run env p (mkState w s []).

(** ** CloudFormation custom-resource events (aws-lambda) *)

Record CloudFormationCustomResourceCreateEvent : Type := {
  create_ResourceProperties : gmap string value;
}.

Record CloudFormationCustomResourceUpdateEvent : Type := {
  update_PhysicalResourceId : string;
  update_ResourceProperties : gmap string value;
}.

Record CloudFormationCustomResourceDeleteEvent : Type := {
  delete_PhysicalResourceId : string;
  delete_ResourceProperties : gmap string value;
}.

(** * stripe-webhook/index.ts *)
Module StripeWebhook.

Record WebhookProps : Type := {
  secretKeyString : string;
  endpointSecretStoreString : option string;
  url : string;
  description : option string;
  events : list string;
}.

(** [ResourceHandlerReturn] of custom-resource-helper. *)
Record ResourceHandlerReturn : Type := {
  physicalResourceId : option value;
  responseData : gmap string value;
}.

Section Handlers.
(** [camelizeKeys<WebhookProps, ...>] of custom-resource-helper: the
    resource properties under their camel-case names. *)
Variable camelizeKeys : gmap string value -> WebhookProps.

(** [return { physicalResourceId: data.id, responseData: { ...data } }] *)
Definition return_data (data : gmap string value) : Prog unit ResourceHandlerReturn :=
  Ret {| physicalResourceId := data !! "id"; responseData := data |}.

Definition handleCreate (event : CloudFormationCustomResourceCreateEvent)
  : Prog unit ResourceHandlerReturn :=
  let props := camelizeKeys (create_ResourceProperties event) in
  await value <- SecretKey_getValue (secretKeyString props) 5;
  await data <- webhookEndpoints_create value
                  {| wp_url := url props;
                     wp_description := description props;
                     wp_enabled_events := events props |} 5;
  match endpointSecretStoreString props, data !! "secret" with
  | Some store, Some secret =>
      if truthy_str (Some store) && truthy secret then
        await _ <- SecretKeyStore_putSecret store 5 secret;
        return_data (delete "secret" data)
      else return_data data
  | _, _ => return_data data
  end.

Definition handleUpdate (event : CloudFormationCustomResourceUpdateEvent)
  : Prog unit ResourceHandlerReturn :=
  let props := camelizeKeys (update_ResourceProperties event) in
  await value <- SecretKey_getValue (secretKeyString props) 5;
  let webhookId := update_PhysicalResourceId event in
  await data <- webhookEndpoints_update value webhookId
                  {| wp_url := url props;
                     wp_description := description props;
                     wp_enabled_events := events props |} 5;
  return_data data.

Definition handleDelete (event : CloudFormationCustomResourceDeleteEvent)
  : Prog unit unit :=
  let props := camelizeKeys (delete_ResourceProperties event) in
  await value <- SecretKey_getValue (secretKeyString props) 5;
  let webhookId := delete_PhysicalResourceId event in
  await _ <- webhookEndpoints_del value webhookId 5;
  Ret tt.

End Handlers.
End StripeWebhook.

(** * stripe-event-bus-producer/index.ts *)
Module EventBusProducer.

(** [APIGatewayProxyEvent], as far as the handler reads it. *)
Record APIGatewayProxyEvent : Type := {
  headers : gmap string string;
  body : option string;               (* [string | null] *)
}.

Record APIGatewayProxyResult : Type := {
  statusCode : Z;
  result_body : string;
}.

Section Handler.
(** Read once when the module is loaded:
    [getEnv('SECRET_KEY_STRING')], [getEnv('ENDPOINT_SECRET_STRING')]. *)
Variables SECRET_KEY_STRING ENDPOINT_SECRET_STRING : string.
(** [process.env] *)
Variable process_env : gmap string string.
Variable JSON_stringify : gmap string value -> string.

(** [getEnv(name, fallback)] of get-env-or-die. *)
Definition getEnv (name fallback : string) : string :=
  default fallback (process_env !! name).

(** The [try] block. *)
Definition handler_try (event : APIGatewayProxyEvent)
  : Prog unit APIGatewayProxyResult :=
  await apiKey <- SecretKey_getValue SECRET_KEY_STRING 5;
  match present (headers event !! "Stripe-Signature") with
  | None => Throw (new_Error "Stripe signature is missing")
  | Some signature =>
      await endpointSecret <- SecretKey_getValue ENDPOINT_SECRET_STRING 5;
      match present (body event) with
      | None => Throw (new_Error "event body undefined or null")
      | Some event_body =>
          await eventReceived <-
            webhooks_constructEvent apiKey event_body signature endpointSecret;
          let type := eventReceived !! "type" in
          let details := delete "type" eventReceived in
          let params :=
            [ {| Detail := JSON_stringify details;
                 DetailType := type;
                 EventBusName := getEnv "EVENT_BUS_NAME" "default";
                 Resources := [];
                 Source := process_env !! "SOURCE" |} ] in
          await _ <- eventBridge_PutEvents params;
          Ret {| statusCode := 200; result_body := "Success" |}
      end
  end.

(** The [catch (error)] block. *)
Definition handler_catch (error : Error) : Prog unit APIGatewayProxyResult :=
  if decide (err_type error = Some "StripeSignatureVerificationError") then
    Ret {| statusCode := 400;
           result_body := "Webhook Error: " +:+ err_message error |}
  else
    Ret {| statusCode := 500;
           result_body := "Error: " +:+ err_message error |}.

Definition handler (event : APIGatewayProxyEvent)
  : Prog unit APIGatewayProxyResult :=
  TryCatch (handler_try event) handler_catch.

End Handler.
End EventBusProducer.

(** * with-configuration/index.ts *)
Module WithConfiguration.

Record WithConfiguration : Type := {
  region : string;
  functionName : string;
  configuration : string;
}.

(** The object bound to [responseDetails]. *)
Record ResponseDetails : Type := {
  responseStatus : string;
  reason : string;
  physicalResourceId : string;
  responseData : gmap string value;
}.

(** An object literal whose property values may be [undefined]; such a
    property is left out, as it is when the object is serialized. *)
Definition object_of (fields : list (string * option string)) : gmap string value :=
  list_to_map (omap (fun '(k, v) => (fun s => (k, VStr s)) <$> v) fields).

Section Handler.
(** [camelizeKeys<WithConfiguration, ...>] of custom-resource-helper. *)
Variable camelizeKeys : gmap string value -> WithConfiguration.

Definition event_ResourceProperties
    (event : CloudFormationCustomResourceCreateEvent
             + CloudFormationCustomResourceUpdateEvent) : gmap string value :=
  match event with
  | inl e => create_ResourceProperties e
  | inr e => update_ResourceProperties e
  end.

(** The callback passed to [.then]. *)
Definition on_active (functionName : string) (out : UpdateFunctionCodeOutput)
    (result : string) : Prog ResponseDetails unit :=
  Store {| physicalResourceId := functionName;
           responseStatus := "SUCCESS";
           reason := "Lambda function " +:+ functionName +:+ " is active.";
           responseData := object_of [("CodeSha256", CodeSha256 out);
                                      ("Version", Version out);
                                      ("FunctionArn", FunctionArn out)] |}
    (Ret tt).

(** The callback passed to [.catch]. *)
Definition on_error (functionName : string) (err : Error)
  : Prog ResponseDetails unit :=
  Store {| responseStatus := "FAILED";
           physicalResourceId := functionName;
           reason := "Encountered error while waiting for " +:+ functionName
                     +:+ " to go active: " +:+ Error_toString err;
           responseData := ∅ |}
    (Ret tt).

Definition updateLambdaCode
    (event : CloudFormationCustomResourceCreateEvent
             + CloudFormationCustomResourceUpdateEvent)
  : Prog ResponseDetails ResponseDetails :=
  let props := camelizeKeys (event_ResourceProperties event) in
  let region := region props in
  let functionName := functionName props in
  let configuration := configuration props in
  await code_Location <- lambda_GetFunction region functionName;
  match present code_Location with
  | None =>
      Throw (new_Error ("The code of the lambda function " +:+ functionName
                        +:+ " could not be downloaded."))
  | Some location =>
      await data <- axios_get location;
      await tempDir <- mkdtempSync "/tmp/lambda-package";
      await _ <- Zip_extractAllTo data tempDir;
      await _ <- writeFileSync (tempDir +:+ "/configuration.json") configuration;
      await newLambdaZip <- Zip_addLocalFolder_toBuffer tempDir;
      await out <- lambda_UpdateFunctionCode region functionName newLambdaZip true;
      (* let responseDetails = { ... } *)
      Store {| responseStatus := "FAILED";
               reason := "Internal Error";
               physicalResourceId := functionName;
               responseData := ∅ |}
      (* waitUntilFunctionActiveV2(...).then(...).catch(...) -- no await *)
      (Detach
         (TryCatch
            (await result <- waitUntilFunctionActiveV2 region 60 functionName;
             on_active functionName out result)
            (on_error functionName))
      (* return responseDetails *)
      (Load (fun responseDetails => Ret responseDetails)))
  end.

Definition handleCreate (event : CloudFormationCustomResourceCreateEvent)
  : Prog ResponseDetails ResponseDetails :=
  updateLambdaCode (inl event).

Definition handleUpdate (event : CloudFormationCustomResourceUpdateEvent)
  : Prog ResponseDetails ResponseDetails :=
  updateLambdaCode (inr event).

End Handler.
End WithConfiguration.

(** * Retry inside the SDK clients *)

(** The number the source passes as [maxAttempts] (AWS clients behind
    [SecretKey] and [SecretKeyStore]) or [maxNetworkRetries] (Stripe). *)
Definition retry_budget (c : Call) : option Z :=
  match c with
  | SecretKey_getValue _ maxAttempts => Some maxAttempts
  | SecretKeyStore_putSecret _ maxAttempts _ => Some maxAttempts
  | webhookEndpoints_create _ _ maxNetworkRetries => Some maxNetworkRetries
  | webhookEndpoints_update _ _ _ maxNetworkRetries => Some maxNetworkRetries
  | webhookEndpoints_del _ _ maxNetworkRetries => Some maxNetworkRetries
  | _ => None
  end.

Module Sdk.
Section Retry.
Context {W : Type}.
(** Which errors count as transient transport errors; every other
    error (a validation error, for one) is final. *)
Variable transient : Error -> bool.

(** Modelled from the spec: the retry loop of the SDK clients
    ([SecretKey] and [SecretKeyStore] of [@cloudcomponents/lambda-utils],
    the Stripe client), which is not part of the handlers' sources.
    Spec 4.1: "bounded automatic retry (fixed attempt budget, e.g. 5)";
    spec 7: "automatic bounded retry for transient transport errors
    only (not applied to validation errors)".
    [retry_loop n attempt]: one attempt, then up to [n] more while the
    error is transient. *)
Fixpoint retry_loop {T} (n : nat) (attempt : W -> (Error + T) * W) (w : W)
  : (Error + T) * W :=
  match attempt w with
  | (inr v, w') => (inr v, w')
  | (inl e, w') =>
      match n with
      | O => (inl e, w')
      | S n' => if transient e then retry_loop n' attempt w' else (inl e, w')
      end
  end.

(** Modelled from the spec: a client call is a retry loop over single
    attempts on the wire, with the call's budget as the total number
    of attempts; a call without a budget is attempted once. *)
Definition with_retry (wire : Env W) : Env W :=
  fun c w =>
    match retry_budget c with
    | Some b => retry_loop (Z.to_nat b - 1) (wire c) w
    | None => wire c w
    end.
End Retry.

(** A wire that keeps a log of every attempt made on it. *)
Definition logged {W} (wire : Env W) : Env (W * list Entry) :=
  fun c '(w, log) =>
    let '(r, w') := wire c w in
    (r, (w', log ++ [mkEntry c r])).

(** Modelled from the spec: the clients the handlers talk to, i.e. the
    retry loop over a wire whose attempts are logged. *)
Definition client {W} (transient : Error -> bool) (wire : Env W)
  : Env (W * list Entry) :=
  with_retry transient (logged wire).

End Sdk.

(** * A reference environment

    A small stand-in for Stripe, the secret service and AWS Lambda, used
    to run the handlers on concrete requests. *)
Module Fixture.

Record World : Type := {
  endpoints : list string;        (* ids of the webhook endpoints that exist *)
  secrets_reachable : bool;       (* does the secret service answer? *)
  goes_active : bool;             (* does the function reach the active state? *)
}.

Definition transport_timeout : Error :=
  {| err_name := "TimeoutError"; err_type := None;
     err_code := Some "ETIMEDOUT"; err_message := "connect ETIMEDOUT" |}.

Definition resource_missing (id : string) : Error :=
  {| err_name := "Error"; err_type := Some "StripeInvalidRequestError";
     err_code := Some "resource_missing";
     err_message := "No such webhook endpoint: " +:+ id |}.

Definition signature_mismatch : Error :=
  {| err_name := "Error"; err_type := Some "StripeSignatureVerificationError";
     err_code := None;
     err_message := "No signatures found matching the expected signature for payload" |}.

Definition waiter_timeout : Error :=
  {| err_name := "TimeoutError"; err_type := None; err_code := None;
     err_message := "Waiter has timed out" |}.

Definition endpoint_object (id : string) (params : WebhookParams) : gmap string value :=
  {[ "id" := VStr id;
     "url" := VStr (wp_url params);
     "enabled_events" := VArr (VStr <$> wp_enabled_events params) ]}.

Definition env : Env World :=
  fun c =>
    match c return World -> (Error + ret_type c) * World with
    | SecretKey_getValue s _ => fun w =>
        if secrets_reachable w then (inr ("value of " +:+ s), w)
        else (inl transport_timeout, w)
    | SecretKeyStore_putSecret _ _ _ => fun w => (inr tt, w)
    | webhookEndpoints_create _ params _ => fun w =>
        (inr (<["secret" := VStr "whsec_test"]> (endpoint_object "we_123" params)),
         {| endpoints := "we_123" :: endpoints w;
            secrets_reachable := secrets_reachable w;
            goes_active := goes_active w |})
    | webhookEndpoints_update _ id params _ => fun w =>
        if bool_decide (id ∈ endpoints w) then (inr (endpoint_object id params), w)
        else (inl (resource_missing id), w)
    | webhookEndpoints_del _ id _ => fun w =>
        if bool_decide (id ∈ endpoints w) then
          (inr {[ "id" := VStr id; "deleted" := VBool true ]},
           {| endpoints := filter (fun x => x ≠ id) (endpoints w);
              secrets_reachable := secrets_reachable w;
              goes_active := goes_active w |})
        else (inl (resource_missing id), w)
    | webhooks_constructEvent _ body signature _ => fun w =>
        if String.eqb signature "t=1,v1=valid" then
          (inr {[ "id" := VStr "evt_1"; "type" := VStr "charge.succeeded";
                  "data" := VStr body ]}, w)
        else (inl signature_mismatch, w)
    | eventBridge_PutEvents _ => fun w => (inr tt, w)
    | lambda_GetFunction _ _ => fun w => (inr (Some "https://awslambda.example/code.zip"), w)
    | lambda_UpdateFunctionCode _ functionName _ _ => fun w =>
        (inr {| CodeSha256 := Some "c0de";
                Version := Some "7";
                FunctionArn := Some ("arn:aws:lambda:us-east-1:1:function:" +:+ functionName) |},
         w)
    | waitUntilFunctionActiveV2 _ _ _ => fun w =>
        if goes_active w then (inr "SUCCESS", w) else (inl waiter_timeout, w)
    | axios_get _ => fun w => (inr "zip", w)
    | mkdtempSync prefix => fun w => (inr (prefix +:+ "a1b2c3"), w)
    | Zip_extractAllTo _ _ => fun w => (inr tt, w)
    | writeFileSync _ _ => fun w => (inr tt, w)
    | Zip_addLocalFolder_toBuffer _ => fun w => (inr "zip+configuration", w)
    end.

Definition str_prop (props : gmap string value) (k : string) : option string :=
  match props !! k with
  | Some (VStr s) => Some s
  | _ => None
  end.

Definition list_prop (props : gmap string value) (k : string) : list string :=
  match props !! k with
  | Some (VArr l) => omap (fun v => match v with VStr s => Some s | _ => None end) l
  | _ => []
  end.

(** Reads the properties under the names CloudFormation passes them. *)
Definition camelizeKeys (props : gmap string value) : StripeWebhook.WebhookProps :=
  {| StripeWebhook.secretKeyString := default "" (str_prop props "SecretKeyString");
     StripeWebhook.endpointSecretStoreString := str_prop props "EndpointSecretStoreString";
     StripeWebhook.url := default "" (str_prop props "Url");
     StripeWebhook.description := str_prop props "Description";
     StripeWebhook.events := list_prop props "Events" |}.

Definition camelizeKeys_configuration (props : gmap string value)
  : WithConfiguration.WithConfiguration :=
  {| WithConfiguration.region := default "" (str_prop props "Region");
     WithConfiguration.functionName := default "" (str_prop props "FunctionName");
     WithConfiguration.configuration := default "" (str_prop props "Configuration") |}.

Definition up : World :=
  {| endpoints := []; secrets_reachable := true; goes_active := true |}.

(** The properties of the spec's example [create({url:"https://x/hook", events:["a"]})]. *)
Definition hook_properties : gmap string value :=
  {[ "SecretKeyString" := VStr "sk";
     "Url" := VStr "https://x/hook";
     "Events" := VArr [VStr "a"] ]}.

Definition hook_properties_with_store : gmap string value :=
  <["EndpointSecretStoreString" := VStr "store"]> hook_properties.

Definition edge_properties : gmap string value :=
  {[ "Region" := VStr "us-east-1";
     "FunctionName" := VStr "edge-fn";
     "Configuration" := VStr "{}" ]}.
End Fixture.

(** * Reading a trace *)

(** The error of a call that rejected. *)
Definition entry_error (en : Entry) : option Error :=
  match eresult en with inl e => Some e | inr _ => None end.

(** The object Stripe answered a [webhookEndpoints.create] with. *)
Definition created (en : Entry) : option (gmap string value) :=
  match en with
  | mkEntry c r =>
      match c return Error + ret_type c -> option (gmap string value) with
      | webhookEndpoints_create _ _ _ =>
          fun r => match r with inr data => Some data | inl _ => None end
      | _ => fun _ => None
      end r
  end.

(** The response of the first successful [webhookEndpoints.create]. *)
Fixpoint api_response (tr : list Entry) : option (gmap string value) :=
  match tr with
  | [] => None
  | en :: tr' =>
      match created en with
      | Some data => Some data
      | None => api_response tr'
      end
  end.

(** The last entry of a trace is a call that rejected with [e]. *)
Definition ends_with_error (tr : list Entry) (e : Error) : Prop :=
  exists en, last tr = Some en /\ entry_error en = Some e.

Definition all_ok (tr : list Entry) : Prop :=
  Forall (fun en => entry_ok en = true) tr.

(** A fault propagates: an operation that throws, throws the error of its
    last call, unchanged; one that returns made only successful calls. *)
Definition propagates {W S A} (out : (Error + A) * State W S) : Prop :=
  match out.1 with
  | inl e => ends_with_error (trace out.2) e
  | inr _ => all_ok (trace out.2)
  end.

(** The secret of a create response that has to go to the secret store:
    a store locator is configured and Stripe returned a secret. *)
Definition secret_to_store (props : StripeWebhook.WebhookProps)
    (data : gmap string value) : option (string * value) :=
  match StripeWebhook.endpointSecretStoreString props, data !! "secret" with
  | Some store, Some secret =>
      if truthy_str (Some store) && truthy secret then Some (store, secret) else None
  | _, _ => None
  end.

(** The secret was written to the store. *)
Definition stored (store : string) (secret : value) (tr : list Entry) : Prop :=
  exists en, en ∈ tr /\ ecall en = SecretKeyStore_putSecret store 5 secret
             /\ entry_ok en = true.

Definition is_putSecret (c : Call) : bool :=
  match c with SecretKeyStore_putSecret _ _ _ => true | _ => false end.

Definition is_getValue (c : Call) : bool :=
  match c with SecretKey_getValue _ _ => true | _ => false end.

Definition is_update (c : Call) : bool :=
  match c with webhookEndpoints_update _ _ _ _ => true | _ => false end.

Definition is_del (c : Call) : bool :=
  match c with webhookEndpoints_del _ _ _ => true | _ => false end.

Definition is_constructEvent (c : Call) : bool :=
  match c with webhooks_constructEvent _ _ _ _ => true | _ => false end.

Definition is_PutEvents (c : Call) : bool :=
  match c with eventBridge_PutEvents _ => true | _ => false end.

(** The endpoint id a Stripe call is scoped to. *)
Definition scoped_id (c : Call) : option string :=
  match c with
  | webhookEndpoints_update _ id _ _ => Some id
  | webhookEndpoints_del _ id _ => Some id
  | _ => None
  end.

(** The spec's [UnknownResource]: Stripe's error for an id that does not
    exist (any more) carries the code [resource_missing]. *)
Definition UnknownResource (e : Error) : Prop :=
  err_code e = Some "resource_missing".

(** The operation failed, with an error of the kind [P]. *)
Definition fails_with {A} (res : Error + A) (P : Error -> Prop) : Prop :=
  exists e, res = inl e /\ P e.


(** * The runs of the Stripe webhook handlers

    Every way an invocation can go, as a relation between the answers of
    the environment and the outcome of the run. *)
Module StripeWebhookRuns.
Import StripeWebhook.

Section Runs.
Context {W : Type}.
Variable env : Env W.

Definition params_of (props : WebhookProps) : WebhookParams :=
  {| wp_url := url props;
     wp_description := description props;
     wp_enabled_events := events props |}.

Definition getKey (props : WebhookProps) : Call :=
  SecretKey_getValue (secretKeyString props) 5.

Inductive create_run (props : WebhookProps) (w : W)
  : (Error + ResourceHandlerReturn) * State W unit -> Prop :=
| create_key_fails e w1 :
    env (getKey props) w = (inl e, w1) ->
    create_run props w
      (inl e, mkState w1 tt [mkEntry (getKey props) (inl e)])
| create_call_fails key w1 e w2 :
    env (getKey props) w = (inr key, w1) ->
    env (webhookEndpoints_create key (params_of props) 5) w1 = (inl e, w2) ->
    create_run props w
      (inl e, mkState w2 tt
                [mkEntry (getKey props) (inr key);
                 mkEntry (webhookEndpoints_create key (params_of props) 5) (inl e)])
| create_returns_response key w1 data w2 :
    env (getKey props) w = (inr key, w1) ->
    env (webhookEndpoints_create key (params_of props) 5) w1 = (inr data, w2) ->
    secret_to_store props data = None ->
    create_run props w
      (inr {| physicalResourceId := data !! "id"; responseData := data |},
       mkState w2 tt
         [mkEntry (getKey props) (inr key);
          mkEntry (webhookEndpoints_create key (params_of props) 5) (inr data)])
| create_store_fails key w1 data w2 store secret e w3 :
    env (getKey props) w = (inr key, w1) ->
    env (webhookEndpoints_create key (params_of props) 5) w1 = (inr data, w2) ->
    secret_to_store props data = Some (store, secret) ->
    env (SecretKeyStore_putSecret store 5 secret) w2 = (inl e, w3) ->
    create_run props w
      (inl e, mkState w3 tt
                [mkEntry (getKey props) (inr key);
                 mkEntry (webhookEndpoints_create key (params_of props) 5) (inr data);
                 mkEntry (SecretKeyStore_putSecret store 5 secret) (inl e)])
| create_returns_redacted key w1 data w2 store secret u w3 :
    env (getKey props) w = (inr key, w1) ->
    env (webhookEndpoints_create key (params_of props) 5) w1 = (inr data, w2) ->
    secret_to_store props data = Some (store, secret) ->
    env (SecretKeyStore_putSecret store 5 secret) w2 = (inr u, w3) ->
    create_run props w
      (inr {| physicalResourceId := delete "secret" data !! "id";
              responseData := delete "secret" data |},
       mkState w3 tt
         [mkEntry (getKey props) (inr key);
          mkEntry (webhookEndpoints_create key (params_of props) 5) (inr data);
          mkEntry (SecretKeyStore_putSecret store 5 secret) (inr u)]).

Inductive update_run (props : WebhookProps) (id : string) (w : W)
  : (Error + ResourceHandlerReturn) * State W unit -> Prop :=
| update_key_fails e w1 :
    env (getKey props) w = (inl e, w1) ->
    update_run props id w
      (inl e, mkState w1 tt [mkEntry (getKey props) (inl e)])
| update_call_fails key w1 e w2 :
    env (getKey props) w = (inr key, w1) ->
    env (webhookEndpoints_update key id (params_of props) 5) w1 = (inl e, w2) ->
    update_run props id w
      (inl e, mkState w2 tt
                [mkEntry (getKey props) (inr key);
                 mkEntry (webhookEndpoints_update key id (params_of props) 5) (inl e)])
| update_returns key w1 data w2 :
    env (getKey props) w = (inr key, w1) ->
    env (webhookEndpoints_update key id (params_of props) 5) w1 = (inr data, w2) ->
    update_run props id w
      (inr {| physicalResourceId := data !! "id"; responseData := data |},
       mkState w2 tt
         [mkEntry (getKey props) (inr key);
          mkEntry (webhookEndpoints_update key id (params_of props) 5) (inr data)]).

Inductive delete_run (props : WebhookProps) (id : string) (w : W)
  : (Error + unit) * State W unit -> Prop :=
| delete_key_fails e w1 :
    env (getKey props) w = (inl e, w1) ->
    delete_run props id w
      (inl e, mkState w1 tt [mkEntry (getKey props) (inl e)])
| delete_call_fails key w1 e w2 :
    env (getKey props) w = (inr key, w1) ->
    env (webhookEndpoints_del key id 5) w1 = (inl e, w2) ->
    delete_run props id w
      (inl e, mkState w2 tt
                [mkEntry (getKey props) (inr key);
                 mkEntry (webhookEndpoints_del key id 5) (inl e)])
| delete_returns key w1 data w2 :
    env (getKey props) w = (inr key, w1) ->
    env (webhookEndpoints_del key id 5) w1 = (inr data, w2) ->
    delete_run props id w
      (inr tt, mkState w2 tt
                 [mkEntry (getKey props) (inr key);
                  mkEntry (webhookEndpoints_del key id 5) (inr data)]).
End Runs.
End StripeWebhookRuns.

(** * Concrete requests *)
Module Scenarios.
Import StripeWebhook.

(** The spec's example [create({url:"https://x/hook", events:["a"]})],
    once with and once without a store for the signing secret. *)
Definition create_event : CloudFormationCustomResourceCreateEvent :=
  {| create_ResourceProperties := Fixture.hook_properties_with_store |}.

Definition plain_create_event : CloudFormationCustomResourceCreateEvent :=
  {| create_ResourceProperties := Fixture.hook_properties |}.

Definition update_event : CloudFormationCustomResourceUpdateEvent :=
  {| update_PhysicalResourceId := "we_123";
     update_ResourceProperties := Fixture.hook_properties |}.

Definition delete_event : CloudFormationCustomResourceDeleteEvent :=
  {| delete_PhysicalResourceId := "we_123";
     delete_ResourceProperties := Fixture.hook_properties |}.

Definition hook_params : WebhookParams :=
  {| wp_url := "https://x/hook"; wp_description := None; wp_enabled_events := ["a"] |}.

(** What the reference Stripe answers the create call with. *)
Definition stripe_answer : gmap string value :=
  <["secret" := VStr "whsec_test"]> (Fixture.endpoint_object "we_123" hook_params).

Definition redacted_return : ResourceHandlerReturn :=
  {| physicalResourceId := Some (VStr "we_123");
     responseData := Fixture.endpoint_object "we_123" hook_params |}.

Definition plain_return : ResourceHandlerReturn :=
  {| physicalResourceId := Some (VStr "we_123");
     responseData := stripe_answer |}.

(** A world in which the endpoint [we_123] exists. *)
Definition with_endpoint : Fixture.World :=
  {| Fixture.endpoints := ["we_123"];
     Fixture.secrets_reachable := true;
     Fixture.goes_active := true |}.

(** A world in which the secret service times out. *)
Definition secrets_down : Fixture.World :=
  {| Fixture.endpoints := ["we_123"];
     Fixture.secrets_reachable := false;
     Fixture.goes_active := true |}.

(** The update call that Stripe refuses when [we_123] does not exist. *)
Definition refused_update : Entry :=
  mkEntry (webhookEndpoints_update "value of sk" "we_123" hook_params 5)
          (inl (Fixture.resource_missing "we_123")).

(** Requests to the event-bus producer. *)
Definition producer :=
  EventBusProducer.handler "sk" "whsec" {[ "SOURCE" := "stripe" ]}
    (fun _ => "{}").

Definition signed_request : EventBusProducer.APIGatewayProxyEvent :=
  {| EventBusProducer.headers := {[ "Stripe-Signature" := "t=1,v1=valid" ]};
     EventBusProducer.body := Some "{}" |}.

Definition forged_request : EventBusProducer.APIGatewayProxyEvent :=
  {| EventBusProducer.headers := {[ "Stripe-Signature" := "t=1,v1=forged" ]};
     EventBusProducer.body := Some "{}" |}.

Definition unsigned_request : EventBusProducer.APIGatewayProxyEvent :=
  {| EventBusProducer.headers := ∅;
     EventBusProducer.body := Some "{}" |}.

Definition bodyless_request : EventBusProducer.APIGatewayProxyEvent :=
  {| EventBusProducer.headers := {[ "Stripe-Signature" := "t=1,v1=valid" ]};
     EventBusProducer.body := None |}.

(** The verification that Stripe's SDK refuses for [forged_request]. *)
Definition refused_verification : Entry :=
  mkEntry (webhooks_constructEvent "value of sk" "{}" "t=1,v1=forged" "value of whsec")
          (inl Fixture.signature_mismatch).

(** A create event for the configuration injection into [edge-fn]. *)
Definition edge_create_event : CloudFormationCustomResourceCreateEvent :=
  {| create_ResourceProperties := Fixture.edge_properties |}.

Definition edge_update_event : CloudFormationCustomResourceUpdateEvent :=
  {| update_PhysicalResourceId := "edge-fn";
     update_ResourceProperties := Fixture.edge_properties |}.

(** What [responseDetails] holds before the function declares it. *)
Definition undeclared : WithConfiguration.ResponseDetails :=
  {| WithConfiguration.responseStatus := "";
     WithConfiguration.reason := "";
     WithConfiguration.physicalResourceId := "";
     WithConfiguration.responseData := ∅ |}.

(** A world in which the function never reaches the active state. *)
Definition never_active : Fixture.World :=
  {| Fixture.endpoints := [];
     Fixture.secrets_reachable := true;
     Fixture.goes_active := false |}.
End Scenarios.


Module Flaky.
(** A wire that fails with a transport timeout as many times as its
    state says, then answers like the reference environment. *)
Definition wire : Env nat :=
  fun c n =>
    match n with
    | S n' => (inl Fixture.transport_timeout, n')
    | O => ((Fixture.env c Scenarios.with_endpoint).1, O)
    end.

Definition transient (e : Error) : bool :=
  bool_decide (err_code e = Some "ETIMEDOUT").
End Flaky.

(** * The runs of the event-bus producer *)
Module EventBusProducerRuns.
Import EventBusProducer.

Definition signature_error_type : string := "StripeSignatureVerificationError".

(** The secret service raises AWS and JavaScript errors; none of them
    carries Stripe's signature-verification type. *)
Definition secret_errors_plain {W} (env : Env W) : Prop :=
  forall s n w e w',
    env (SecretKey_getValue s n) w = (inl e, w') ->
    err_type e <> Some signature_error_type.

(** The event was handed to EventBridge and the call resolved. *)
Definition published (tr : list Entry) : Prop :=
  Exists (fun en => is_PutEvents (ecall en) = true /\ entry_ok en = true) tr.

(** The signature was checked and accepted. *)
Definition verified (tr : list Entry) : Prop :=
  Exists (fun en => is_constructEvent (ecall en) = true /\ entry_ok en = true) tr.

Section Runs.
Context {W : Type}.
Variable env : Env W.
Variables SECRET_KEY_STRING ENDPOINT_SECRET_STRING : string.
Variable process_env : gmap string string.
Variable JSON_stringify : gmap string value -> string.

Definition getApiKey : Call := SecretKey_getValue SECRET_KEY_STRING 5.
Definition getEndpointSecret : Call := SecretKey_getValue ENDPOINT_SECRET_STRING 5.

(** The [PutEventsCommand] built from a verified event. *)
Definition put_events (eventReceived : gmap string value) : Call :=
  eventBridge_PutEvents
    [ {| Detail := JSON_stringify (delete "type" eventReceived);
         DetailType := eventReceived !! "type";
         EventBusName := getEnv process_env "EVENT_BUS_NAME" "default";
         Resources := [];
         Source := process_env !! "SOURCE" |} ].

(** The runs of the [try] block. *)
Inductive try_run (event : APIGatewayProxyEvent) (w : W)
  : (Error + APIGatewayProxyResult) * State W unit -> Prop :=
| try_api_key_fails e w1 :
    env getApiKey w = (inl e, w1) ->
    try_run event w (inl e, mkState w1 tt [mkEntry getApiKey (inl e)])
| try_signature_missing apiKey w1 :
    env getApiKey w = (inr apiKey, w1) ->
    present (headers event !! "Stripe-Signature") = None ->
    try_run event w
      (inl (new_Error "Stripe signature is missing"),
       mkState w1 tt [mkEntry getApiKey (inr apiKey)])
| try_endpoint_secret_fails apiKey w1 signature e w2 :
    env getApiKey w = (inr apiKey, w1) ->
    present (headers event !! "Stripe-Signature") = Some signature ->
    env getEndpointSecret w1 = (inl e, w2) ->
    try_run event w
      (inl e, mkState w2 tt [mkEntry getApiKey (inr apiKey);
                             mkEntry getEndpointSecret (inl e)])
| try_body_missing apiKey w1 signature endpointSecret w2 :
    env getApiKey w = (inr apiKey, w1) ->
    present (headers event !! "Stripe-Signature") = Some signature ->
    env getEndpointSecret w1 = (inr endpointSecret, w2) ->
    present (body event) = None ->
    try_run event w
      (inl (new_Error "event body undefined or null"),
       mkState w2 tt [mkEntry getApiKey (inr apiKey);
                      mkEntry getEndpointSecret (inr endpointSecret)])
| try_verification_fails apiKey w1 signature endpointSecret w2 event_body e w3 :
    env getApiKey w = (inr apiKey, w1) ->
    present (headers event !! "Stripe-Signature") = Some signature ->
    env getEndpointSecret w1 = (inr endpointSecret, w2) ->
    present (body event) = Some event_body ->
    env (webhooks_constructEvent apiKey event_body signature endpointSecret) w2
      = (inl e, w3) ->
    try_run event w
      (inl e,
       mkState w3 tt
         [mkEntry getApiKey (inr apiKey);
          mkEntry getEndpointSecret (inr endpointSecret);
          mkEntry (webhooks_constructEvent apiKey event_body signature endpointSecret)
                  (inl e)])
| try_publish_fails apiKey w1 signature endpointSecret w2 event_body
    eventReceived w3 e w4 :
    env getApiKey w = (inr apiKey, w1) ->
    present (headers event !! "Stripe-Signature") = Some signature ->
    env getEndpointSecret w1 = (inr endpointSecret, w2) ->
    present (body event) = Some event_body ->
    env (webhooks_constructEvent apiKey event_body signature endpointSecret) w2
      = (inr eventReceived, w3) ->
    env (put_events eventReceived) w3 = (inl e, w4) ->
    try_run event w
      (inl e,
       mkState w4 tt
         [mkEntry getApiKey (inr apiKey);
          mkEntry getEndpointSecret (inr endpointSecret);
          mkEntry (webhooks_constructEvent apiKey event_body signature endpointSecret)
                  (inr eventReceived);
          mkEntry (put_events eventReceived) (inl e)])
| try_published apiKey w1 signature endpointSecret w2 event_body
    eventReceived w3 u w4 :
    env getApiKey w = (inr apiKey, w1) ->
    present (headers event !! "Stripe-Signature") = Some signature ->
    env getEndpointSecret w1 = (inr endpointSecret, w2) ->
    present (body event) = Some event_body ->
    env (webhooks_constructEvent apiKey event_body signature endpointSecret) w2
      = (inr eventReceived, w3) ->
    env (put_events eventReceived) w3 = (inr u, w4) ->
    try_run event w
      (inr {| statusCode := 200; result_body := "Success" |},
       mkState w4 tt
         [mkEntry getApiKey (inr apiKey);
          mkEntry getEndpointSecret (inr endpointSecret);
          mkEntry (webhooks_constructEvent apiKey event_body signature endpointSecret)
                  (inr eventReceived);
          mkEntry (put_events eventReceived) (inr u)]).
End Runs.
End EventBusProducerRuns.

(** * What the configuration injection reports *)
Module WithConfigurationOutcomes.
Import WithConfiguration.

(** The value [responseDetails] is initialised with. *)
Definition internal_error (functionName : string) : ResponseDetails :=
  {| responseStatus := "FAILED";
     reason := "Internal Error";
     physicalResourceId := functionName;
     responseData := ∅ |}.

(** The value the [.then] callback assigns once the function is active. *)
Definition active (functionName : string) (out : UpdateFunctionCodeOutput)
  : ResponseDetails :=
  {| physicalResourceId := functionName;
     responseStatus := "SUCCESS";
     reason := "Lambda function " +:+ functionName +:+ " is active.";
     responseData := object_of [("CodeSha256", CodeSha256 out);
                                ("Version", Version out);
                                ("FunctionArn", FunctionArn out)] |}.

Definition is_wait (c : Call) : bool :=
  match c with waitUntilFunctionActiveV2 _ _ _ => true | _ => false end.

(** The wait for the active state settled with success. *)
Definition went_active (tr : list Entry) : Prop :=
  Exists (fun en => is_wait (ecall en) = true /\ entry_ok en = true) tr.
End WithConfigurationOutcomes.

(** * More ways to read a trace *)

(** The API key a Stripe call is made with. *)
Definition api_key_of (c : Call) : option string :=
  match c with
  | webhookEndpoints_create apiKey _ _ => Some apiKey
  | webhookEndpoints_update apiKey _ _ _ => Some apiKey
  | webhookEndpoints_del apiKey _ _ => Some apiKey
  | _ => None
  end.

(** The endpoint parameters a Stripe call sends. *)
Definition params_sent (c : Call) : option WebhookParams :=
  match c with
  | webhookEndpoints_create _ params _ => Some params
  | webhookEndpoints_update _ _ params _ => Some params
  | _ => None
  end.

Definition is_create (c : Call) : bool :=
  match c with webhookEndpoints_create _ _ _ => true | _ => false end.


(** No call of the trace goes to Stripe's webhook-endpoint API. *)
Definition stripe_free (tr : list Entry) : Prop :=
  Forall (fun en => api_key_of (ecall en) = None) tr.

(** The object Stripe answered a [webhookEndpoints.update] with. *)
Definition updated (en : Entry) : option (gmap string value) :=
  match en with
  | mkEntry c r =>
      match c return Error + ret_type c -> option (gmap string value) with
      | webhookEndpoints_update _ _ _ _ =>
          fun r => match r with inr data => Some data | inl _ => None end
      | _ => fun _ => None
      end r
  end.

Module StoreDown.
(** The secret store refuses every write. *)
Definition access_denied : Error :=
{| err_name := "AccessDeniedException"; err_type := None; err_code := None;
   err_message := "not authorized to perform: secretsmanager:PutSecretValue" |}.

(** The reference environment, except that the secret store is down. *)
Definition env : Env Fixture.World :=
fun c =>
  match c as c0
        return (Fixture.World -> (Error + ret_type c0) * Fixture.World) ->
               Fixture.World -> (Error + ret_type c0) * Fixture.World
  with
  | SecretKeyStore_putSecret _ _ _ => fun _ w => (inl access_denied, w)
  | _ => fun answer => answer
  end (Fixture.env c).
End StoreDown.

Module Relabel.
(** The reference environment, except that Stripe answers an update with
  an object whose id is [we_456]. *)
Definition env : Env Fixture.World :=
fun c =>
  match c as c0
        return (Fixture.World -> (Error + ret_type c0) * Fixture.World) ->
               Fixture.World -> (Error + ret_type c0) * Fixture.World
  with
  | webhookEndpoints_update _ _ params _ =>
      fun _ w => (inr (<["secret" := VStr "whsec_test"]>
                         (Fixture.endpoint_object "we_456" params)), w)
  | _ => fun answer => answer
  end (Fixture.env c).

Definition update_event_with_store : CloudFormationCustomResourceUpdateEvent :=
{| update_PhysicalResourceId := "we_123";
   update_ResourceProperties := Fixture.hook_properties_with_store |}.

Definition relabelled_return : StripeWebhook.ResourceHandlerReturn :=
{| StripeWebhook.physicalResourceId := Some (VStr "we_456");
   StripeWebhook.responseData :=
     <["secret" := VStr "whsec_test"]>
       (Fixture.endpoint_object "we_456" Scenarios.hook_params) |}.
End Relabel.

Module MoreRequests.
(** A request whose signature header is there but empty. *)
Definition blank_signature_request : EventBusProducer.APIGatewayProxyEvent :=
{| EventBusProducer.headers := {[ "Stripe-Signature" := "" ]};
   EventBusProducer.body := Some "{}" |}.

(** The event the reference Stripe SDK makes of [signed_request]. *)
Definition verified_event : gmap string value :=
{[ "id" := VStr "evt_1"; "type" := VStr "charge.succeeded"; "data" := VStr "{}" ]}.

(** The [PutEvents] call the producer makes for [verified_event]. *)
Definition put_verified_event : Call :=
eventBridge_PutEvents
  [ {| Detail := "{}";
       DetailType := Some (VStr "charge.succeeded");
       EventBusName := "default";
       Resources := [];
       Source := Some "stripe" |} ].
End MoreRequests.

(** * More on the configuration injection *)
Module WithConfigurationMore.
Import WithConfiguration.

Definition is_update_code (c : Call) : bool :=
match c with lambda_UpdateFunctionCode _ _ _ _ => true | _ => false end.

(** The value the [.catch] callback assigns when the wait fails. *)
Definition wait_failed (functionName : string) (err : Error) : ResponseDetails :=
{| responseStatus := "FAILED";
   physicalResourceId := functionName;
   reason := "Encountered error while waiting for " +:+ functionName
             +:+ " to go active: " +:+ Error_toString err;
   responseData := ∅ |}.

(** What the callbacks leave in [responseDetails] for an outcome of the wait. *)
Definition recorded (functionName : string) (out : UpdateFunctionCodeOutput)
  (outcome : Error + string) : ResponseDetails :=
match outcome with
| inr _ => WithConfigurationOutcomes.active functionName out
| inl err => wait_failed functionName err
end.

(** The reference environment, except that Lambda reports no location
  for the function's code. *)
Definition env_without_code : Env Fixture.World :=
fun c =>
  match c as c0
        return (Fixture.World -> (Error + ret_type c0) * Fixture.World) ->
               Fixture.World -> (Error + ret_type c0) * Fixture.World
  with
  | lambda_GetFunction _ _ => fun _ w => (inr None, w)
  | _ => fun answer => answer
  end (Fixture.env c).

Definition download_failed : Error :=
{| err_name := "AxiosError"; err_type := None; err_code := Some "ERR_BAD_REQUEST";
   err_message := "Request failed with status code 403" |}.

(** The reference environment, except that the download of the code fails. *)
Definition env_without_download : Env Fixture.World :=
fun c =>
  match c as c0
        return (Fixture.World -> (Error + ret_type c0) * Fixture.World) ->
               Fixture.World -> (Error + ret_type c0) * Fixture.World
  with
  | axios_get _ => fun _ w => (inl download_failed, w)
  | _ => fun answer => answer
  end (Fixture.env c).

(** The output of the reference [UpdateFunctionCode] for [edge-fn]. *)
Definition edge_output : UpdateFunctionCodeOutput :=
{| CodeSha256 := Some "c0de";
   Version := Some "7";
   FunctionArn := Some "arn:aws:lambda:us-east-1:1:function:edge-fn" |}.
End WithConfigurationMore.

(** * CDK constructs

    The constructors of the construct classes only declare resources: a
    CodeBuild project with its build specification, statements added to
    the project's role, grants on buckets, a schedule rule.  A constructor
    is embedded as the function from its props to what it declares. *)
Module Cdk.

(** The double-quote character. *)
Definition dq : string := String (Ascii.ascii_of_nat 34) EmptyString.

(** [s] between double quotes. *)
Definition quoted (s : string) : string := dq +:+ s +:+ dq.

(** An object literal. *)
Definition obj (fields : list (string * value)) : value := VObj (list_to_map fields).

(** An array of strings. *)
Definition strings (l : list string) : value := VArr (VStr <$> l).

(** [v.k1.k2...] *)
Fixpoint at_path (path : list string) (v : value) : option value :=
match path with
| [] => Some v
| k :: path' =>
    match v with
    | VObj o => match o !! k with Some v' => at_path path' v' | None => None end
    | _ => None
    end
end.

(** [Array.prototype.join] *)
Fixpoint join (sep : string) (l : list string) : string :=
match l with
| [] => ""
| x :: l' =>
    match l' with
    | [] => x
    | _ :: _ => x +:+ sep +:+ join sep l'
    end
end.

(** [IRepository], as far as the constructs read it. *)
Record IRepository : Type := {
repositoryName : string;
repositoryCloneUrlHttp : string;
repositoryArn : string;
}.

Record Bucket : Type := { bucketName : string }.

(** A build image of [LinuxBuildImage]. *)
Record LinuxBuildImage : Type := {
imageId : string;
defaultComputeType : string;
}.

Record BuildEnvironment : Type := {
buildImage : LinuxBuildImage;
computeType : string;
}.

Record PolicyStatement : Type := {
resources : list string;
actions : list string;
}.

(** The props of [new Project(...)]. *)
Record ProjectProps : Type := {
cache : option string;
environment : BuildEnvironment;
environmentVariables : gmap string string;
buildSpec : value;                    (* [BuildSpec.fromObject(...)] *)
}.

(** [computeType || buildImage.defaultComputeType] *)
Definition compute_type_or_default (computeType : option string)
  (image : LinuxBuildImage) : string :=
default (defaultComputeType image) (present computeType).

(** The statement all three constructs add to the project's role. *)
Definition read_statement (resources : list string) : PolicyStatement :=
{| resources := resources;
   actions := ["codecommit:BatchGet*"; "codecommit:Get*"; "codecommit:Describe*";
               "codecommit:List*"; "codecommit:GitPull"] |}.
End Cdk.

(** * codecommit-dependency-check.ts *)
Module DependencyCheck.
Import Cdk.

Section Construct.
(** JavaScript numbers ([failOnCVSS] is a score between 0 and 10). *)
Variable number : Type.
Variable zero : number.

(** [ScanProps] of [./cli]. *)
Record ScanProps : Type := {
scan_projectName : string;
scan_basedir : string;
scan_paths : list string;
scan_failOnCVSS : number;
scan_enableExperimental : option bool;
scan_suppressions : option (list string);
scan_excludes : option (list string);
}.

(** The command lines [new Cli()] of [./cli] renders. *)
Variable cli_version : string.
Variable cli_scan : ScanProps -> string.

(** [LinuxBuildImage.STANDARD_2_0] *)
Variable STANDARD_2_0 : LinuxBuildImage.

Record CodeCommitDependencyCheckProps : Type := {
repository : IRepository;
schedule : string;
props_computeType : option string;
preCheckCommand : option string;
version : option string;
projectName : option string;
failOnCVSS : option number;
paths : option (list string);
excludes : option (list string);
suppressions : option (list string);
enableExperimental : option bool;
reportsBucket : option Bucket;
}.

(** What the constructor declares. *)
Record CodeCommitDependencyCheck : Type := {
checkProject : ProjectProps;            (* [new Project(this, 'CheckProject', ...)] *)
rolePolicy : list PolicyStatement;      (* [checkProject.addToRolePolicy(...)] *)
writeGrants : list Bucket;              (* [reportsBucket.grantWrite(checkProject)] *)
scheduleRule : string;                  (* [new Rule(...)], targeting [checkProject] *)
}.

(** The argument of [cli.scan(...)]. *)
Definition scan_props (props : CodeCommitDependencyCheckProps) : ScanProps :=
let repositoryName := repositoryName (repository props) in
{| scan_projectName := default repositoryName (present (projectName props));
 scan_basedir := repositoryName;
 scan_paths := default ["."] (paths props);
 scan_failOnCVSS := default zero (failOnCVSS props);
 scan_enableExperimental := enableExperimental props;
 scan_suppressions := suppressions props;
 scan_excludes := excludes props |}.

Definition construct (props : CodeCommitDependencyCheckProps)
: CodeCommitDependencyCheck :=
let preCheckCommand :=
default ("echo " +:+ quoted "No preCheckCommand!") (preCheckCommand props) in
let version := default "5.3.2" (version props) in
let repositoryName := repositoryName (repository props) in
let repositoryCloneUrlHttp := repositoryCloneUrlHttp (repository props) in
let repositoryArn := repositoryArn (repository props) in
let buildImage := STANDARD_2_0 in
let dependencyCheck := "dependency-check-" +:+ version +:+ "-release" in
let checkProject :=
{| cache := Some "CUSTOM";
   environment :=
     {| buildImage := buildImage;
        computeType := compute_type_or_default (props_computeType props) buildImage |};
   environmentVariables := ∅;
   buildSpec :=
     obj [
       ("version", VStr "0.2");
       ("env", obj [("git-credential-helper", VStr "yes")]);
       ("phases", obj [
          ("install", obj [
             ("commands", strings [
                "echo " +:+ quoted "[===== Install OWASP Dependency Check =====]";
                "wget -O public-key.asc https://bintray.com/user/downloadSubjectPublicKey?username=jeremy-long";
                "gpg --keyid-format long --list-options show-keyring public-key.asc";
                "gpg --import public-key.asc";
                "wget https://dl.bintray.com/jeremy-long/owasp/" +:+ dependencyCheck +:+ ".zip";
                "wget https://dl.bintray.com/jeremy-long/owasp/" +:+ dependencyCheck +:+ ".zip.asc";
                "gpg --verify " +:+ dependencyCheck +:+ ".zip.asc " +:+ dependencyCheck +:+ ".zip";
                "unzip " +:+ dependencyCheck +:+ ".zip -d /opt";
                "chmod +x /opt/dependency-check/bin/dependency-check.sh";
                "export PATH=" +:+ quoted "$PATH:/opt/dependency-check/bin" ])]);
          ("pre_build", obj [
             ("commands", strings [
                "echo " +:+ quoted ("[===== Clone repository: " +:+ repositoryName +:+ " =====]");
                "git clone " +:+ quoted repositoryCloneUrlHttp;
                "cd " +:+ repositoryName;
                preCheckCommand;
                "SHA=$(git rev-parse HEAD)";
                "cd ${CODEBUILD_SRC_DIR}" ])]);
          ("build", obj [
             ("commands", strings [
                "echo " +:+ quoted ("[===== Scan repository: " +:+ repositoryName +:+ " =====]");
                "echo " +:+ quoted "[===== SHA: $SHA =====]";
                "mkdir reports";
                cli_version;
                cli_scan (scan_props props) ]);
             ("finally", strings [
                "echo " +:+ quoted "[===== Upload reports =====]";
                "dt=$(date -u '+%Y_%m_%d_%H_%M')";
                match reportsBucket props with
                | Some reportsBucket =>
                    "aws s3 cp reports/dependency-check-report.html s3://"
                    +:+ bucketName reportsBucket +:+ "/" +:+ repositoryName
                    +:+ "/${dt}_UTC/"
                | None => "echo " +:+ quoted "No reportsBuckets"
                end ])]) ]);
       ("reports", obj [
          ("dependencyCheckReport", obj [
             ("files", strings ["reports/dependency-check-junit.xml"])])]);
       ("cache", obj [("paths", strings ["/opt/dependency-check/data/**/*"])]) ] |} in
{| checkProject := checkProject;
 rolePolicy := [read_statement [repositoryArn]];
 writeGrants := match reportsBucket props with
                | Some reportsBucket => [reportsBucket]
                | None => []
                end;
 scheduleRule := schedule props |}.

(** The props with every omitted option set to the default its doc
comment announces. *)
Definition with_documented_defaults (props : CodeCommitDependencyCheckProps)
: CodeCommitDependencyCheckProps :=
{| repository := repository props;
 schedule := schedule props;
 props_computeType :=
   Some (default (defaultComputeType STANDARD_2_0) (props_computeType props));
 preCheckCommand :=
   Some (default ("echo " +:+ quoted "No preCheckCommand!") (preCheckCommand props));
 version := Some (default "5.3.2" (version props));
 projectName :=
   Some (default (repositoryName (repository props)) (projectName props));
 failOnCVSS := Some (default zero (failOnCVSS props));
 paths := Some (default ["."] (paths props));
 excludes := excludes props;
 suppressions := suppressions props;
 enableExperimental := enableExperimental props;
 reportsBucket := reportsBucket props |}.

(** The commands of the [finally] block of the build phase. *)
Definition finally_commands (c : CodeCommitDependencyCheck) : option value :=
at_path ["phases"; "build"; "finally"] (buildSpec (checkProject c)).
End Construct.
End DependencyCheck.

(** * full-region-s3-codecommit-backup.ts *)
Module FullRegionBackup.
Import Cdk.

Definition S3_BUCKET_ENV : string := "SCRIPTS_BUCKET".
Definition S3_KEY_ENV : string := "SCRIPTS_BUCKET_KEY".

(** [Asset], as far as the construct reads it. *)
Record Asset : Type := {
s3BucketName : string;
s3ObjectKey : string;
}.

Record FullRegionS3CodeCommitBackupProps : Type := {
backupBucket : Bucket;
schedule : string;
repositoryNames : option (list string);
props_computeType : option string;
}.

(** What the constructor declares. *)
Record FullRegionS3CodeCommitBackup : Type := {
backupProject : ProjectProps;   (* [new Project(this, 'FullRegionBackupProject', ...)] *)
readGrants : list Asset;        (* [asset.grantRead(backupProject)] *)
putGrants : list Bucket;        (* [backupBucket.grantPut(backupProject)] *)
rolePolicy : list PolicyStatement;
scheduleRule : string;
}.

Section Construct.
(** [LinuxBuildImage.STANDARD_5_0] *)
Variable STANDARD_5_0 : LinuxBuildImage.
(** [new Asset(this, 'ScriptsDirectory', ...)]: the uploaded scripts directory. *)
Variable asset : Asset.

Definition construct (props : FullRegionS3CodeCommitBackupProps)
: FullRegionS3CodeCommitBackup :=
let repositoryNames := default [] (repositoryNames props) in
let buildImage := STANDARD_5_0 in
let backupProject :=
{| cache := None;
   environment :=
     {| buildImage := buildImage;
        computeType := compute_type_or_default (props_computeType props) buildImage |};
   environmentVariables :=
     {[ "BACKUP_BUCKET" := bucketName (backupBucket props);
        "REPOSITORY_NAMES" := join " " repositoryNames;
        S3_BUCKET_ENV := s3BucketName asset;
        S3_KEY_ENV := s3ObjectKey asset ]};
   buildSpec :=
     obj [
       ("version", VStr "0.2");
       ("env", obj [("git-credential-helper", VStr "yes")]);
       ("phases", obj [
          ("pre_build", obj [
             ("commands", strings [
                "echo " +:+ quoted ("Downloading scripts from s3://${" +:+ S3_BUCKET_ENV
                                    +:+ "}/${" +:+ S3_KEY_ENV +:+ "}");
                "aws s3 cp s3://${" +:+ S3_BUCKET_ENV +:+ "}/${" +:+ S3_KEY_ENV +:+ "} ./";
                "unzip ./$(basename ${" +:+ S3_KEY_ENV +:+ "})" ])]);
          ("build", obj [
             ("commands", strings ["chmod +x backup_codecommit.sh";
                                   "./backup_codecommit.sh"])]) ]) ] |} in
{| backupProject := backupProject;
 readGrants := [asset];
 putGrants := [backupBucket props];
 rolePolicy := [read_statement ["*"]];
 scheduleRule := schedule props |}.

(** The value of the project's [REPOSITORY_NAMES] variable. *)
Definition REPOSITORY_NAMES (props : FullRegionS3CodeCommitBackupProps) : option string :=
environmentVariables (backupProject (construct props)) !! "REPOSITORY_NAMES".
End Construct.

Definition space : Ascii.ascii := Ascii.ascii_of_nat 32.

Fixpoint has_space (s : string) : bool :=
match s with
| EmptyString => false
| String a s' => if Ascii.eqb a space then true else has_space s'
end.

(** A name that survives being joined with spaces: not empty, no space in it. *)
Definition plain_name (s : string) : Prop := s <> "" /\ has_space s = false.

(** What follows a name in a joined string: nothing, or a space. *)
Definition after_name (r : string) : Prop :=
r = "" \/ exists r', r = String space r'.
End FullRegionBackup.

(** * Concrete constructs *)
Module Stacks.
Import Cdk.

Definition image : LinuxBuildImage :=
{| imageId := "aws/codebuild/standard:5.0"; defaultComputeType := "BUILD_GENERAL1_SMALL" |}.

Definition scripts : FullRegionBackup.Asset :=
{| FullRegionBackup.s3BucketName := "assets"; FullRegionBackup.s3ObjectKey := "scripts.zip" |}.

Definition backup_of (names : list string)
: FullRegionBackup.FullRegionS3CodeCommitBackupProps :=
{| FullRegionBackup.backupBucket := {| bucketName := "backups" |};
   FullRegionBackup.schedule := "rate(1 day)";
   FullRegionBackup.repositoryNames := Some names;
   FullRegionBackup.props_computeType := None |}.

Definition render_scan (p : DependencyCheck.ScanProps Z) : string :=
"dependency-check.sh --project " +:+ DependencyCheck.scan_projectName Z p.

(** A check of the repository [shop] with an empty project name and no
  other optional prop. *)
Definition bare_check : DependencyCheck.CodeCommitDependencyCheckProps Z :=
{| DependencyCheck.repository :=
     {| repositoryName := "shop";
        repositoryCloneUrlHttp := "https://git-codecommit.example/v1/repos/shop";
        repositoryArn := "arn:aws:codecommit:us-east-1:1:shop" |};
   DependencyCheck.schedule := "rate(1 day)";
   DependencyCheck.props_computeType := None;
   DependencyCheck.preCheckCommand := None;
   DependencyCheck.version := None;
   DependencyCheck.projectName := Some "";
   DependencyCheck.failOnCVSS := None;
   DependencyCheck.paths := None;
   DependencyCheck.excludes := None;
   DependencyCheck.suppressions := None;
   DependencyCheck.enableExperimental := None;
   DependencyCheck.reportsBucket := None |}.
End Stacks.

(** * Theorems *)

(** ** Stripe webhook: create, update, delete *)

Section StripeWebhookFacts.
Import StripeWebhook StripeWebhookRuns.
Context {W : Type}.
Variable env : Env W.
Variable camelizeKeys : gmap string value -> WebhookProps.

Lemma handleCreate_run (event : CloudFormationCustomResourceCreateEvent) (w : W) :
  create_run env (camelizeKeys (create_ResourceProperties event)) w
    (invoke env (handleCreate camelizeKeys event) w tt).
Proof.
  unfold invoke, handleCreate. simpl.
  set (props := camelizeKeys (create_ResourceProperties event)).
  fold (getKey props). fold (params_of props).
  destruct (env (getKey props) w) as [[e|key] w1] eqn:Hkey; simpl in *.
  { by apply create_key_fails. }
  destruct (env (webhookEndpoints_create key (params_of props) 5) w1)
    as [[e|data] w2] eqn:Hcall; simpl in *.
  { by eapply create_call_fails. }
  assert (Hto : secret_to_store props data =
                match endpointSecretStoreString props, data !! "secret" with
                | Some store, Some secret =>
                    if negb (String.eqb store "") && truthy secret
                    then Some (store, secret) else None
                | _, _ => None
                end) by reflexivity.
  destruct (endpointSecretStoreString props) as [store|].
  2: { by eapply create_returns_response. }
  destruct (data !! "secret") as [secret|].
  2: { by eapply create_returns_response. }
  destruct (negb (String.eqb store "") && truthy secret).
  2: { by eapply create_returns_response. }
  simpl.
  destruct (env (SecretKeyStore_putSecret store 5 secret) w2)
    as [[e|u] w3] eqn:Hput; simpl.
  - by eapply create_store_fails.
  - by eapply create_returns_redacted.
Qed.

Lemma handleUpdate_run (event : CloudFormationCustomResourceUpdateEvent) (w : W) :
  update_run env (camelizeKeys (update_ResourceProperties event))
    (update_PhysicalResourceId event) w
    (invoke env (handleUpdate camelizeKeys event) w tt).
Proof.
  unfold invoke, handleUpdate. simpl.
  set (props := camelizeKeys (update_ResourceProperties event)).
  fold (getKey props). fold (params_of props).
  destruct (env (getKey props) w) as [[e|key] w1] eqn:Hkey; simpl in *.
  { by apply update_key_fails. }
  destruct (env (webhookEndpoints_update key _ (params_of props) 5) w1)
    as [[e|data] w2] eqn:Hcall; simpl in *.
  - by eapply update_call_fails.
  - by eapply update_returns.
Qed.

Lemma handleDelete_run (event : CloudFormationCustomResourceDeleteEvent) (w : W) :
  delete_run env (camelizeKeys (delete_ResourceProperties event))
    (delete_PhysicalResourceId event) w
    (invoke env (handleDelete camelizeKeys event) w tt).
Proof.
  unfold invoke, handleDelete. simpl.
  set (props := camelizeKeys (delete_ResourceProperties event)).
  fold (getKey props).
  destruct (env (getKey props) w) as [[e|key] w1] eqn:Hkey; simpl in *.
  { by apply delete_key_fails. }
  destruct (env (webhookEndpoints_del key _ 5) w1)
    as [[e|data] w2] eqn:Hcall; simpl in *.
  - by eapply delete_call_fails.
  - by eapply delete_returns.
Qed.

(** The runs of update and delete, read forward from the answers of the
    environment. *)
Lemma handleUpdate_without_key
    (event : CloudFormationCustomResourceUpdateEvent) (w : W) (e : Error) (w1 : W) :
  let props := camelizeKeys (update_ResourceProperties event) in
  env (SecretKey_getValue (secretKeyString props) 5) w = (inl e, w1) ->
  invoke env (handleUpdate camelizeKeys event) w tt
  = (inl e, mkState w1 tt [mkEntry (SecretKey_getValue (secretKeyString props) 5) (inl e)]).
Proof.
  intros props Hkey. unfold invoke, handleUpdate. simpl. fold props.
  by rewrite Hkey.
Qed.

Lemma handleUpdate_with_key
    (event : CloudFormationCustomResourceUpdateEvent) (w : W)
    (key : string) (w1 : W) (answer : Error + gmap string value) (w2 : W) :
  let props := camelizeKeys (update_ResourceProperties event) in
  let call := webhookEndpoints_update key (update_PhysicalResourceId event)
                (params_of props) 5 in
  env (SecretKey_getValue (secretKeyString props) 5) w = (inr key, w1) ->
  env call w1 = (answer, w2) ->
  invoke env (handleUpdate camelizeKeys event) w tt
  = (match answer with
     | inl e => inl e
     | inr data => inr {| physicalResourceId := data !! "id"; responseData := data |}
     end,
     mkState w2 tt [mkEntry (SecretKey_getValue (secretKeyString props) 5) (inr key);
                    mkEntry call answer]).
Proof.
  intros props call Hkey Hcall. unfold invoke, handleUpdate. simpl. fold props.
  rewrite Hkey. simpl. fold (params_of props). fold call. rewrite Hcall.
  by destruct answer.
Qed.

Lemma handleDelete_without_key
    (event : CloudFormationCustomResourceDeleteEvent) (w : W) (e : Error) (w1 : W) :
  let props := camelizeKeys (delete_ResourceProperties event) in
  env (SecretKey_getValue (secretKeyString props) 5) w = (inl e, w1) ->
  invoke env (handleDelete camelizeKeys event) w tt
  = (inl e, mkState w1 tt [mkEntry (SecretKey_getValue (secretKeyString props) 5) (inl e)]).
Proof.
  intros props Hkey. unfold invoke, handleDelete. simpl. fold props.
  by rewrite Hkey.
Qed.

Lemma handleDelete_with_key
    (event : CloudFormationCustomResourceDeleteEvent) (w : W)
    (key : string) (w1 : W) (answer : Error + gmap string value) (w2 : W) :
  let props := camelizeKeys (delete_ResourceProperties event) in
  let call := webhookEndpoints_del key (delete_PhysicalResourceId event) 5 in
  env (SecretKey_getValue (secretKeyString props) 5) w = (inr key, w1) ->
  env call w1 = (answer, w2) ->
  invoke env (handleDelete camelizeKeys event) w tt
  = (match answer with inl e => inl e | inr _ => inr tt end,
     mkState w2 tt [mkEntry (SecretKey_getValue (secretKeyString props) 5) (inr key);
                    mkEntry call answer]).
Proof.
  intros props call Hkey Hcall. unfold invoke, handleDelete. simpl. fold props.
  rewrite Hkey. simpl. fold call. rewrite Hcall.
  by destruct answer.
Qed.

Lemma handleCreate_with_response
    (event : CloudFormationCustomResourceCreateEvent) (w : W)
    (key : string) (w1 : W) (data : gmap string value) (w2 : W) :
  let props := camelizeKeys (create_ResourceProperties event) in
  env (SecretKey_getValue (secretKeyString props) 5) w = (inr key, w1) ->
  env (webhookEndpoints_create key (params_of props) 5) w1 = (inr data, w2) ->
  secret_to_store props data = None ->
  invoke env (handleCreate camelizeKeys event) w tt
  = (inr {| physicalResourceId := data !! "id"; responseData := data |},
     mkState w2 tt
       [mkEntry (SecretKey_getValue (secretKeyString props) 5) (inr key);
        mkEntry (webhookEndpoints_create key (params_of props) 5) (inr data)]).
Proof.
  intros props Hkey Hcall Hnone.
  pose proof (handleCreate_run event w) as Hc. fold props in Hc.
  inversion Hc as [e w1' Hk Heq | key' w1' e w2' Hk Hc' Heq
                   | key' w1' data' w2' Hk Hc' Hs Heq
                   | key' w1' data' w2' store secret e w3 Hk Hc' Hs Hp Heq
                   | key' w1' data' w2' store secret u w3 Hk Hc' Hs Hp Heq];
    unfold getKey in Hk; rewrite Hkey in Hk; try discriminate Hk;
    injection Hk as <- <-; rewrite Hcall in Hc'; try discriminate Hc';
    injection Hc' as <- <-; try congruence.
  reflexivity.
Qed.

Lemma delete_secret_keeps_id (data : gmap string value) :
  delete "secret" data !! "id" = data !! "id".
Proof. by rewrite lookup_delete_ne. Qed.

Lemma secret_to_store_Some (props : WebhookProps) (data : gmap string value)
    (store : string) (secret : value) :
  secret_to_store props data = Some (store, secret) ->
  endpointSecretStoreString props = Some store /\ store <> ""
  /\ data !! "secret" = Some secret /\ truthy secret = true.
Proof.
  unfold secret_to_store.
  destruct (endpointSecretStoreString props) as [store'|]; [|done].
  destruct (data !! "secret") as [secret'|]; [|done].
  simpl. destruct (String.eqb_spec store' ""); simpl; [done|].
  destruct (truthy secret') eqn:Ht; [|done].
  intros [= <- <-]. done.
Qed.

(** Case analysis on a run: [Hrun] names its outcome, [Hfact] says
    which runs there are. *)
Ltac run_cases Hrun Hfact :=
  let Hc := fresh "Hc" in
  pose proof Hfact as Hc; rewrite Hrun in Hc;
  inversion Hc; subst; clear Hc.

(** C3. A successful create whose signing secret has to be stored (a
    store locator is configured and Stripe's response [data] carries a
    secret) returns Stripe's response with exactly the [secret] property
    removed, and the secret has been written to the secret store. *)
Theorem handleCreate_redacts_stored_secret
    (event : CloudFormationCustomResourceCreateEvent) (w : W)
    (r : ResourceHandlerReturn) (st' : State W unit)
    (data : gmap string value) (store : string) (secret : value) :
  invoke env (handleCreate camelizeKeys event) w tt = (inr r, st') ->
  api_response (trace st') = Some data ->
  secret_to_store (camelizeKeys (create_ResourceProperties event)) data
    = Some (store, secret) ->
  responseData r = delete "secret" data
  /\ responseData r !! "secret" = None
  /\ (forall k, k <> "secret" -> responseData r !! k = data !! k)
  /\ data !! "secret" = Some secret
  /\ stored store secret (trace st').
Proof.
  intros Hrun Hdata Hstore.
  run_cases Hrun (handleCreate_run event w); simpl in Hdata; injection Hdata as ->.
  { congruence. }
  assert (store0 = store /\ secret0 = secret) as [-> ->] by (split; congruence).
  simpl. split_and!.
  - done.
  - apply lookup_delete_eq.
  - intros k Hk. by rewrite lookup_delete_ne.
  - by apply secret_to_store_Some in Hstore as (_ & _ & ? & _).
  - exists (mkEntry (SecretKeyStore_putSecret store 5 secret) (inr u)).
    split_and!; [set_solver|done|done].
Qed.

(** C9. Without a store locator in the resource properties a successful
    create returns Stripe's response as it is, signing secret included,
    and writes nothing to a secret store; the response is changed, or a
    secret stored, only when a (non-empty) locator is configured and the
    response carries a (truthy) secret. *)
Theorem handleCreate_keeps_secret_without_store
    (event : CloudFormationCustomResourceCreateEvent) (w : W)
    (r : ResourceHandlerReturn) (st' : State W unit)
    (data : gmap string value) :
  invoke env (handleCreate camelizeKeys event) w tt = (inr r, st') ->
  api_response (trace st') = Some data ->
  let props := camelizeKeys (create_ResourceProperties event) in
  (endpointSecretStoreString props = None ->
     responseData r = data
     /\ responseData r !! "secret" = data !! "secret"
     /\ Forall (fun en => is_putSecret (ecall en) = false) (trace st'))
  /\ (responseData r <> data
      \/ Exists (fun en => is_putSecret (ecall en) = true) (trace st') ->
      exists store secret,
        endpointSecretStoreString props = Some store /\ store <> ""
        /\ data !! "secret" = Some secret /\ truthy secret = true).
Proof.
  intros Hrun Hdata props.
  run_cases Hrun (handleCreate_run event w); simpl in Hdata; injection Hdata as ->; simpl.
  - split.
    + intros _. split_and!; [done|done|]. by repeat constructor.
    + intros [Hne|Hput]; [done|].
      repeat (apply Exists_cons in Hput as [Hput|Hput]; [done|]).
      by apply Exists_nil in Hput.
  - match goal with
    | H : secret_to_store _ _ = Some _ |- _ =>
        pose proof (secret_to_store_Some _ _ _ _ H) as Hboth
    end.
    split.
    + intros Hnone. destruct Hboth as [Hsome _]. fold props in Hsome. congruence.
    + intros _. eauto.
Qed.

(** C5. The physical id a successful create returns is the [id] of the
    object Stripe answered with, and a create whose response needs no
    secret stored does return it.  An update (a delete) issues, besides
    resolving the API key, only the Stripe update (delete) call, scoped
    to exactly the physical id of the incoming event; it issues that
    call whenever the key was resolved, whatever Stripe then answers,
    and no call at all when the key was not resolved. *)
Theorem physical_id_is_stripes_id
    (ce : CloudFormationCustomResourceCreateEvent)
    (ue : CloudFormationCustomResourceUpdateEvent)
    (de : CloudFormationCustomResourceDeleteEvent) (w : W) :
  (forall r st',
      invoke env (handleCreate camelizeKeys ce) w tt = (inr r, st') ->
      exists data, api_response (trace st') = Some data
                   /\ physicalResourceId r = data !! "id")
  /\ (forall res st',
         invoke env (handleUpdate camelizeKeys ue) w tt = (res, st') ->
         Forall (fun en => is_getValue (ecall en) = true
                           \/ is_update (ecall en) = true
                              /\ scoped_id (ecall en) = Some (update_PhysicalResourceId ue))
                (trace st')
         /\ (forall r, res = inr r ->
               Exists (fun en => scoped_id (ecall en)
                                 = Some (update_PhysicalResourceId ue)) (trace st')))
  /\ (forall res st',
         invoke env (handleDelete camelizeKeys de) w tt = (res, st') ->
         Forall (fun en => is_getValue (ecall en) = true
                           \/ is_del (ecall en) = true
                              /\ scoped_id (ecall en) = Some (delete_PhysicalResourceId de))
                (trace st')
         /\ (forall r, res = inr r ->
               Exists (fun en => scoped_id (ecall en)
                                 = Some (delete_PhysicalResourceId de)) (trace st')))
  /\ (forall (key : string) (w1 : W) (data : gmap string value) (w2 : W),
         let props := camelizeKeys (create_ResourceProperties ce) in
         env (SecretKey_getValue (secretKeyString props) 5) w = (inr key, w1) ->
         env (webhookEndpoints_create key (params_of props) 5) w1 = (inr data, w2) ->
         secret_to_store props data = None ->
         (invoke env (handleCreate camelizeKeys ce) w tt).1
         = inr {| physicalResourceId := data !! "id"; responseData := data |})
  /\ (forall (key : string) (w1 : W) (answer : Error + gmap string value) (w2 : W),
         let props := camelizeKeys (update_ResourceProperties ue) in
         let call := webhookEndpoints_update key (update_PhysicalResourceId ue)
                       (params_of props) 5 in
         env (SecretKey_getValue (secretKeyString props) 5) w = (inr key, w1) ->
         env call w1 = (answer, w2) ->
         trace (invoke env (handleUpdate camelizeKeys ue) w tt).2
         = [mkEntry (SecretKey_getValue (secretKeyString props) 5) (inr key);
            mkEntry call answer])
  /\ (forall (key : string) (w1 : W) (answer : Error + gmap string value) (w2 : W),
         let props := camelizeKeys (delete_ResourceProperties de) in
         let call := webhookEndpoints_del key (delete_PhysicalResourceId de) 5 in
         env (SecretKey_getValue (secretKeyString props) 5) w = (inr key, w1) ->
         env call w1 = (answer, w2) ->
         trace (invoke env (handleDelete camelizeKeys de) w tt).2
         = [mkEntry (SecretKey_getValue (secretKeyString props) 5) (inr key);
            mkEntry call answer])
  /\ (forall (e : Error) (w1 : W),
         env (SecretKey_getValue
                (secretKeyString (camelizeKeys (update_ResourceProperties ue))) 5) w
         = (inl e, w1) ->
         stripe_free (trace (invoke env (handleUpdate camelizeKeys ue) w tt).2))
  /\ (forall (e : Error) (w1 : W),
         env (SecretKey_getValue
                (secretKeyString (camelizeKeys (delete_ResourceProperties de))) 5) w
         = (inl e, w1) ->
         stripe_free (trace (invoke env (handleDelete camelizeKeys de) w tt).2)).
Proof.
  split_and!.
  - intros r st' Hrun. run_cases Hrun (handleCreate_run ce w); eexists; simpl; split; try reflexivity.
    apply delete_secret_keeps_id.
  - intros res st' Hrun. run_cases Hrun (handleUpdate_run ue w); simpl;
      (split;
       [ repeat apply Forall_cons_2; try apply Forall_nil_2; simpl; auto
       | intros r Hr;
         first [discriminate Hr | by apply Exists_cons_tl, Exists_cons_hd] ]).
  - intros res st' Hrun. run_cases Hrun (handleDelete_run de w); simpl;
      (split;
       [ repeat apply Forall_cons_2; try apply Forall_nil_2; simpl; auto
       | intros r Hr;
         first [discriminate Hr | by apply Exists_cons_tl, Exists_cons_hd] ]).
  - intros key w1 data w2 props Hkey Hcall Hnone.
    by rewrite (handleCreate_with_response ce w key w1 data w2 Hkey Hcall Hnone).
  - intros key w1 answer w2 props call Hkey Hcall.
    by rewrite (handleUpdate_with_key ue w key w1 answer w2 Hkey Hcall).
  - intros key w1 answer w2 props call Hkey Hcall.
    by rewrite (handleDelete_with_key de w key w1 answer w2 Hkey Hcall).
  - intros e w1 Hkey. rewrite (handleUpdate_without_key ue w e w1 Hkey).
    by repeat constructor.
  - intros e w1 Hkey. rewrite (handleDelete_without_key de w e w1 Hkey).
    by repeat constructor.
Qed.

(** C6. When Stripe answers the update call with its error for an id
    that no longer exists, the update fails, and it fails with that very
    error; the call that was refused is the one scoped to the event's
    physical id. *)
Theorem handleUpdate_fails_on_unknown_resource
    (event : CloudFormationCustomResourceUpdateEvent) (w : W)
    (res : Error + ResourceHandlerReturn) (st' : State W unit)
    (en : Entry) (e : Error) :
  invoke env (handleUpdate camelizeKeys event) w tt = (res, st') ->
  en ∈ trace st' ->
  is_update (ecall en) = true ->
  entry_error en = Some e ->
  UnknownResource e ->
  res = inl e
  /\ fails_with res UnknownResource
  /\ scoped_id (ecall en) = Some (update_PhysicalResourceId event).
Proof.
  intros Hrun Hen Hupd Herr Hunknown. unfold fails_with.
  run_cases Hrun (handleUpdate_run event w); simpl in Hen;
    repeat (apply elem_of_cons in Hen as [->|Hen]); try (by apply elem_of_nil in Hen);
    simpl in *; try discriminate.
  injection Herr as ->. eauto.
Qed.

(** C2 (as the code has it). A delete returns success exactly when the
    API key was resolved and Stripe's delete call for the event's
    physical id succeeded; when Stripe refuses that call, as it does for
    an endpoint that is already gone, the delete fails with Stripe's
    error; when the key cannot be resolved it fails with that error and
    Stripe is not called. *)
Theorem handleDelete_fails_when_stripe_refuses
    (event : CloudFormationCustomResourceDeleteEvent) (w : W)
    (res : Error + unit) (st' : State W unit) :
  invoke env (handleDelete camelizeKeys event) w tt = (res, st') ->
  let props := camelizeKeys (delete_ResourceProperties event) in
  let getK := SecretKey_getValue (secretKeyString props) 5 in
  let del key := webhookEndpoints_del key (delete_PhysicalResourceId event) 5 in
  (forall en e, en ∈ trace st' -> is_del (ecall en) = true ->
                entry_error en = Some e -> res = inl e)
  /\ (res = inr tt <-> all_ok (trace st'))
  /\ (res = inr tt <->
      exists (key : string) (w1 : W) (data : gmap string value) (w2 : W),
        env getK w = (inr key, w1)
        /\ env (del key) w1 = (inr data, w2)
        /\ st' = mkState w2 tt [mkEntry getK (inr key); mkEntry (del key) (inr data)])
  /\ (forall (key : string) (w1 : W) (e : Error) (w2 : W),
        env getK w = (inr key, w1) ->
        env (del key) w1 = (inl e, w2) ->
        res = inl e
        /\ st' = mkState w2 tt [mkEntry getK (inr key); mkEntry (del key) (inl e)])
  /\ (forall (e : Error) (w1 : W),
        env getK w = (inl e, w1) ->
        res = inl e /\ st' = mkState w1 tt [mkEntry getK (inl e)]).
Proof.
  intros Hrun props getK del. unfold all_ok.
  assert (Hold : (forall en e, en ∈ trace st' -> is_del (ecall en) = true ->
                               entry_error en = Some e -> res = inl e)
                 /\ (res = inr tt <-> Forall (fun en => entry_ok en = true) (trace st'))).
  { run_cases Hrun (handleDelete_run event w); simpl; split.
    all: try (intros en e' Hen Hdel Herr;
              repeat (apply elem_of_cons in Hen as [->|Hen]);
              try (by apply elem_of_nil in Hen);
              simpl in Hdel, Herr; first [discriminate | by injection Herr as ->]).
    - split; [done|]. rewrite Forall_cons. simpl. intuition discriminate.
    - split; [done|]. rewrite !Forall_cons. simpl. intuition discriminate.
    - split; [|done]. intros _. by repeat constructor. }
  destruct Hold as [Hrefused Hok]. split_and!; [exact Hrefused | exact Hok | | |].
  - split.
    + intros ->. pose proof (handleDelete_run event w) as Hc. rewrite Hrun in Hc.
      inversion Hc as [| | key w1 data w2 Hkey Hcall]; subst.
      exists key, w1, data, w2. done.
    + intros (key & w1 & data & w2 & Hkey & Hcall & ->).
      rewrite (handleDelete_with_key event w key w1 (inr data) w2 Hkey Hcall) in Hrun.
      by injection Hrun as <-.
  - intros key w1 e w2 Hkey Hcall.
    rewrite (handleDelete_with_key event w key w1 (inl e) w2 Hkey Hcall) in Hrun.
    by injection Hrun as <- <-.
  - intros e w1 Hkey.
    rewrite (handleDelete_without_key event w e w1 Hkey) in Hrun.
    by injection Hrun as <- <-.
Qed.


(** C4 (as the code has it). Create, update and delete translate no
    fault: an operation whose secret resolution or Stripe call fails
    throws that call's error unchanged, and an operation returns only
    when every call it made succeeded. *)
Theorem faults_propagate_unchanged
    (ce : CloudFormationCustomResourceCreateEvent)
    (ue : CloudFormationCustomResourceUpdateEvent)
    (de : CloudFormationCustomResourceDeleteEvent) (w : W) :
  propagates (invoke env (handleCreate camelizeKeys ce) w tt)
  /\ propagates (invoke env (handleUpdate camelizeKeys ue) w tt)
  /\ propagates (invoke env (handleDelete camelizeKeys de) w tt).
Proof.
  unfold propagates, ends_with_error, all_ok.
  split_and!.
  - destruct (handleCreate_run ce w); simpl;
      try (eexists; split; reflexivity); by repeat constructor.
  - destruct (handleUpdate_run ue w); simpl;
      try (eexists; split; reflexivity); by repeat constructor.
  - destruct (handleDelete_run de w); simpl;
      try (eexists; split; reflexivity); by repeat constructor.
Qed.
End StripeWebhookFacts.

(** *** The handlers on concrete requests *)

Lemma handleCreate_redacts_stored_secret_witness :
  let st' := (invoke Fixture.env
                (StripeWebhook.handleCreate Fixture.camelizeKeys Scenarios.create_event)
                Fixture.up tt).2 in
  StripeWebhook.responseData Scenarios.redacted_return
    = delete "secret" Scenarios.stripe_answer
  /\ StripeWebhook.responseData Scenarios.redacted_return !! "secret" = None
  /\ (forall k, k <> "secret" ->
        StripeWebhook.responseData Scenarios.redacted_return !! k
        = Scenarios.stripe_answer !! k)
  /\ Scenarios.stripe_answer !! "secret" = Some (VStr "whsec_test")
  /\ stored "store" (VStr "whsec_test") (trace st').
Proof.
  apply (handleCreate_redacts_stored_secret Fixture.env Fixture.camelizeKeys
           Scenarios.create_event Fixture.up);
    vm_compute; reflexivity.
Defined.

Lemma handleCreate_keeps_secret_without_store_witness :
  let st' := (invoke Fixture.env
                (StripeWebhook.handleCreate Fixture.camelizeKeys
                   Scenarios.plain_create_event)
                Fixture.up tt).2 in
  StripeWebhook.responseData Scenarios.plain_return = Scenarios.stripe_answer
  /\ StripeWebhook.responseData Scenarios.plain_return !! "secret"
     = Scenarios.stripe_answer !! "secret"
  /\ Forall (fun en => is_putSecret (ecall en) = false) (trace st').
Proof.
  apply (handleCreate_keeps_secret_without_store Fixture.env Fixture.camelizeKeys
           Scenarios.plain_create_event Fixture.up Scenarios.plain_return _
           Scenarios.stripe_answer);
    vm_compute; reflexivity.
Defined.

Lemma physical_id_is_stripes_id_witness :
  (exists data,
      api_response
        (trace (invoke Fixture.env
                  (StripeWebhook.handleCreate Fixture.camelizeKeys Scenarios.create_event)
                  Fixture.up tt).2) = Some data
      /\ StripeWebhook.physicalResourceId Scenarios.redacted_return = data !! "id")
  /\ (invoke Fixture.env
        (StripeWebhook.handleCreate Fixture.camelizeKeys Scenarios.plain_create_event)
        Fixture.up tt).1 = inr Scenarios.plain_return
  /\ trace (invoke Fixture.env
              (StripeWebhook.handleUpdate Fixture.camelizeKeys Scenarios.update_event)
              Fixture.up tt).2
     = [mkEntry (SecretKey_getValue "sk" 5) (inr "value of sk");
        Scenarios.refused_update]
  /\ trace (invoke Fixture.env
              (StripeWebhook.handleDelete Fixture.camelizeKeys Scenarios.delete_event)
              Scenarios.with_endpoint tt).2
     = [mkEntry (SecretKey_getValue "sk" 5) (inr "value of sk");
        mkEntry (webhookEndpoints_del "value of sk" "we_123" 5)
                (inr {[ "id" := VStr "we_123"; "deleted" := VBool true ]})]
  /\ stripe_free
       (trace (invoke Fixture.env
                 (StripeWebhook.handleUpdate Fixture.camelizeKeys Scenarios.update_event)
                 Scenarios.secrets_down tt).2)
  /\ stripe_free
       (trace (invoke Fixture.env
                 (StripeWebhook.handleDelete Fixture.camelizeKeys Scenarios.delete_event)
                 Scenarios.secrets_down tt).2).
Proof.
  destruct (physical_id_is_stripes_id Fixture.env Fixture.camelizeKeys
              Scenarios.create_event Scenarios.update_event
              Scenarios.delete_event Fixture.up)
    as (Hcreate & _ & _ & _ & Hupdate & _ & _ & _).
  destruct (physical_id_is_stripes_id Fixture.env Fixture.camelizeKeys
              Scenarios.plain_create_event Scenarios.update_event
              Scenarios.delete_event Fixture.up)
    as (_ & _ & _ & Hplain & _ & _ & _ & _).
  destruct (physical_id_is_stripes_id Fixture.env Fixture.camelizeKeys
              Scenarios.create_event Scenarios.update_event
              Scenarios.delete_event Scenarios.with_endpoint)
    as (_ & _ & _ & _ & _ & Hdelete & _ & _).
  destruct (physical_id_is_stripes_id Fixture.env Fixture.camelizeKeys
              Scenarios.create_event Scenarios.update_event
              Scenarios.delete_event Scenarios.secrets_down)
    as (_ & _ & _ & _ & _ & _ & Hupdate_down & Hdelete_down).
  split_and!.
  - apply Hcreate. vm_compute; reflexivity.
  - apply (Hplain "value of sk" Fixture.up Scenarios.stripe_answer
             {| Fixture.endpoints := ["we_123"];
                Fixture.secrets_reachable := true;
                Fixture.goes_active := true |}); reflexivity.
  - apply (Hupdate "value of sk" Fixture.up
             (inl (Fixture.resource_missing "we_123")) Fixture.up); reflexivity.
  - apply (Hdelete "value of sk" Scenarios.with_endpoint
             (inr {[ "id" := VStr "we_123"; "deleted" := VBool true ]}) Fixture.up);
      reflexivity.
  - apply (Hupdate_down Fixture.transport_timeout Scenarios.secrets_down). reflexivity.
  - apply (Hdelete_down Fixture.transport_timeout Scenarios.secrets_down). reflexivity.
Defined.

Lemma handleUpdate_fails_on_unknown_resource_witness :
  (invoke Fixture.env
     (StripeWebhook.handleUpdate Fixture.camelizeKeys Scenarios.update_event)
     Fixture.up tt).1 = inl (Fixture.resource_missing "we_123")
  /\ fails_with
       (invoke Fixture.env
          (StripeWebhook.handleUpdate Fixture.camelizeKeys Scenarios.update_event)
          Fixture.up tt).1 UnknownResource
  /\ scoped_id (ecall Scenarios.refused_update) = Some "we_123".
Proof.
  pose proof (handleUpdate_fails_on_unknown_resource Fixture.env Fixture.camelizeKeys
                Scenarios.update_event Fixture.up _ _ Scenarios.refused_update
                (Fixture.resource_missing "we_123") eq_refl) as H.
  apply H.
  - vm_compute. apply list_elem_of_further, list_elem_of_here.
  - reflexivity.
  - reflexivity.
  - reflexivity.
Defined.

Lemma handleDelete_fails_when_stripe_refuses_witness :
  let delete := StripeWebhook.handleDelete Fixture.camelizeKeys Scenarios.delete_event in
  (invoke Fixture.env delete Scenarios.with_endpoint tt).1 = inr tt
  /\ ((invoke Fixture.env delete Fixture.up tt).1
      = inl (Fixture.resource_missing "we_123")
      /\ (invoke Fixture.env delete Fixture.up tt).2
         = mkState Fixture.up tt
             [mkEntry (SecretKey_getValue "sk" 5) (inr "value of sk");
              mkEntry (webhookEndpoints_del "value of sk" "we_123" 5)
                      (inl (Fixture.resource_missing "we_123"))])
  /\ ((invoke Fixture.env delete Scenarios.secrets_down tt).1
      = inl Fixture.transport_timeout
      /\ (invoke Fixture.env delete Scenarios.secrets_down tt).2
         = mkState Scenarios.secrets_down tt
             [mkEntry (SecretKey_getValue "sk" 5) (inl Fixture.transport_timeout)]).
Proof.
  intros delete.
  destruct (handleDelete_fails_when_stripe_refuses Fixture.env Fixture.camelizeKeys
              Scenarios.delete_event Scenarios.with_endpoint
              (invoke Fixture.env delete Scenarios.with_endpoint tt).1
              (invoke Fixture.env delete Scenarios.with_endpoint tt).2)
    as (_ & _ & [_ Hsuccess] & _ & _); [vm_compute; reflexivity|].
  destruct (handleDelete_fails_when_stripe_refuses Fixture.env Fixture.camelizeKeys
              Scenarios.delete_event Fixture.up
              (invoke Fixture.env delete Fixture.up tt).1
              (invoke Fixture.env delete Fixture.up tt).2)
    as (_ & _ & _ & Hrefused & _); [vm_compute; reflexivity|].
  destruct (handleDelete_fails_when_stripe_refuses Fixture.env Fixture.camelizeKeys
              Scenarios.delete_event Scenarios.secrets_down
              (invoke Fixture.env delete Scenarios.secrets_down tt).1
              (invoke Fixture.env delete Scenarios.secrets_down tt).2)
    as (_ & _ & _ & _ & Hdown); [vm_compute; reflexivity|].
  split; [|split].
  - apply Hsuccess.
    exists "value of sk", Scenarios.with_endpoint,
           {[ "id" := VStr "we_123"; "deleted" := VBool true ]}, Fixture.up.
    split_and!; vm_compute; reflexivity.
  - apply (Hrefused "value of sk" Fixture.up (Fixture.resource_missing "we_123")
             Fixture.up); reflexivity.
  - apply (Hdown Fixture.transport_timeout Scenarios.secrets_down). reflexivity.
Defined.

(** C2 refuted on the code: the first delete of [we_123] succeeds, the
    second one, for which Stripe reports that the endpoint does not exist,
    fails with Stripe's error instead of succeeding. *)
Lemma handleDelete_twice_second_fails :
  let delete := StripeWebhook.handleDelete Fixture.camelizeKeys Scenarios.delete_event in
  let first := invoke Fixture.env delete Scenarios.with_endpoint tt in
  let second := invoke Fixture.env delete (world first.2) tt in
  first.1 = inr tt
  /\ second.1 = inl (Fixture.resource_missing "we_123")
  /\ second.1 <> inr tt.
Proof. vm_compute. split_and!; [reflexivity|reflexivity|discriminate]. Qed.

(** C4 refuted on the code: with the secret service timing out, each
    operation throws the transport error itself; none returns an outcome. *)
Lemma handlers_throw_transport_fault :
  (invoke Fixture.env
     (StripeWebhook.handleCreate Fixture.camelizeKeys Scenarios.create_event)
     Scenarios.secrets_down tt).1 = inl Fixture.transport_timeout
  /\ (invoke Fixture.env
        (StripeWebhook.handleUpdate Fixture.camelizeKeys Scenarios.update_event)
        Scenarios.secrets_down tt).1 = inl Fixture.transport_timeout
  /\ (invoke Fixture.env
        (StripeWebhook.handleDelete Fixture.camelizeKeys Scenarios.delete_event)
        Scenarios.secrets_down tt).1 = inl Fixture.transport_timeout.
Proof. vm_compute. done. Qed.

(** ** Retry budget *)

Section RetryFacts.
Import StripeWebhook StripeWebhookRuns.
Context {W : Type}.
Variable transient : Error -> bool.
Variable wire : Env W.


Abbreviation sdk := (Sdk.client transient wire).




Variable camelizeKeys : gmap string value -> WebhookProps.

(** Any environment at all, for the part that does not depend on how
    the clients retry. *)
Context {W' : Type}.
Variable env : Env W'.

End RetryFacts.

(** ** Event-bus producer *)

Section EventBusProducerFacts.
Import EventBusProducer EventBusProducerRuns.
Context {W : Type}.
Variable env : Env W.
Variables SECRET_KEY_STRING ENDPOINT_SECRET_STRING : string.
Variable process_env : gmap string string.
Variable JSON_stringify : gmap string value -> string.

Abbreviation the_handler :=
  (handler SECRET_KEY_STRING ENDPOINT_SECRET_STRING process_env JSON_stringify).
Abbreviation the_try :=
  (handler_try SECRET_KEY_STRING ENDPOINT_SECRET_STRING process_env JSON_stringify).
Abbreviation the_try_run :=
  (try_run env SECRET_KEY_STRING ENDPOINT_SECRET_STRING process_env JSON_stringify).

Lemma handler_try_run (event : APIGatewayProxyEvent) (w : W) :
  the_try_run event w (invoke env (the_try event) w tt).
Proof.
  unfold invoke, handler_try. simpl.
  fold (getApiKey SECRET_KEY_STRING).
  destruct (env (getApiKey SECRET_KEY_STRING) w) as [[e|apiKey] w1] eqn:Hkey;
    simpl in *.
  { by apply try_api_key_fails. }
  destruct (present (headers event !! "Stripe-Signature")) as [signature|] eqn:Hsig;
    simpl.
  2: { by eapply try_signature_missing. }
  fold (getEndpointSecret ENDPOINT_SECRET_STRING).
  destruct (env (getEndpointSecret ENDPOINT_SECRET_STRING) w1)
    as [[e|endpointSecret] w2] eqn:Hsecret; simpl in *.
  { by eapply try_endpoint_secret_fails. }
  destruct (present (body event)) as [event_body|] eqn:Hbody; simpl.
  2: { by eapply try_body_missing. }
  destruct (env (webhooks_constructEvent apiKey event_body signature endpointSecret) w2)
    as [[e|eventReceived] w3] eqn:Hverify; simpl in *.
  { by eapply try_verification_fails. }
  fold (put_events process_env JSON_stringify eventReceived).
  destruct (env (put_events process_env JSON_stringify eventReceived) w3)
    as [[e|u] w4] eqn:Hput; simpl in *.
  - by eapply try_publish_fails.
  - by eapply try_published.
Qed.

(** The handler is its [try] block followed, on an exception, by the
    [catch] block, which always returns. *)
Lemma handler_unfold (event : APIGatewayProxyEvent) (w : W) :
  invoke env (the_handler event) w tt =
  match invoke env (the_try event) w tt with
  | (inr resp, st') => (inr resp, st')
  | (inl e, st') =>
      (inr (if decide (err_type e = Some signature_error_type)
            then {| statusCode := 400;
                    result_body := "Webhook Error: " +:+ err_message e |}
            else {| statusCode := 500;
                    result_body := "Error: " +:+ err_message e |}), st')
  end.
Proof.
  unfold invoke, handler. cbn [run].
  destruct (run env (the_try event) _) as [[e|resp] st']; [|done].
  unfold handler_catch, signature_error_type. by destruct (decide _).
Qed.

(** The runs that reach the verification, read forward from the
    answers of the environment. *)
Lemma handler_verification_refused
    (event : APIGatewayProxyEvent) (w : W) (apiKey : string) (w1 : W)
    (signature endpointSecret : string) (w2 : W) (event_body : string)
    (e : Error) (w3 : W) :
  env (SecretKey_getValue SECRET_KEY_STRING 5) w = (inr apiKey, w1) ->
  present (headers event !! "Stripe-Signature") = Some signature ->
  env (SecretKey_getValue ENDPOINT_SECRET_STRING 5) w1 = (inr endpointSecret, w2) ->
  present (body event) = Some event_body ->
  env (webhooks_constructEvent apiKey event_body signature endpointSecret) w2
  = (inl e, w3) ->
  invoke env (the_handler event) w tt
  = (inr (if decide (err_type e = Some signature_error_type)
          then {| statusCode := 400;
                  result_body := "Webhook Error: " +:+ err_message e |}
          else {| statusCode := 500;
                  result_body := "Error: " +:+ err_message e |}),
     mkState w3 tt
       [mkEntry (SecretKey_getValue SECRET_KEY_STRING 5) (inr apiKey);
        mkEntry (SecretKey_getValue ENDPOINT_SECRET_STRING 5) (inr endpointSecret);
        mkEntry (webhooks_constructEvent apiKey event_body signature endpointSecret)
                (inl e)]).
Proof.
  intros Hkey Hsig Hsecret Hbody Hverify.
  unfold invoke, handler, handler_try. simpl.
  rewrite Hkey. simpl. rewrite Hsig. simpl. rewrite Hsecret. simpl.
  rewrite Hbody. simpl. rewrite Hverify. simpl.
  unfold handler_catch, signature_error_type. by destruct (decide _).
Qed.

Lemma handler_verified
    (event : APIGatewayProxyEvent) (w : W) (apiKey : string) (w1 : W)
    (signature endpointSecret : string) (w2 : W) (event_body : string)
    (eventReceived : gmap string value) (w3 : W) (answer : Error + unit) (w4 : W) :
  let put :=
    eventBridge_PutEvents
      [ {| Detail := JSON_stringify (delete "type" eventReceived);
           DetailType := eventReceived !! "type";
           EventBusName := default "default" (process_env !! "EVENT_BUS_NAME");
           Resources := [];
           Source := process_env !! "SOURCE" |} ] in
  env (SecretKey_getValue SECRET_KEY_STRING 5) w = (inr apiKey, w1) ->
  present (headers event !! "Stripe-Signature") = Some signature ->
  env (SecretKey_getValue ENDPOINT_SECRET_STRING 5) w1 = (inr endpointSecret, w2) ->
  present (body event) = Some event_body ->
  env (webhooks_constructEvent apiKey event_body signature endpointSecret) w2
  = (inr eventReceived, w3) ->
  env put w3 = (answer, w4) ->
  invoke env (the_handler event) w tt
  = (inr (match answer with
          | inr _ => {| statusCode := 200; result_body := "Success" |}
          | inl e =>
              if decide (err_type e = Some signature_error_type)
              then {| statusCode := 400;
                      result_body := "Webhook Error: " +:+ err_message e |}
              else {| statusCode := 500;
                      result_body := "Error: " +:+ err_message e |}
          end),
     mkState w4 tt
       [mkEntry (SecretKey_getValue SECRET_KEY_STRING 5) (inr apiKey);
        mkEntry (SecretKey_getValue ENDPOINT_SECRET_STRING 5) (inr endpointSecret);
        mkEntry (webhooks_constructEvent apiKey event_body signature endpointSecret)
                (inr eventReceived);
        mkEntry put answer]).
Proof.
  intros put Hkey Hsig Hsecret Hbody Hverify Hput.
  unfold invoke, handler, handler_try. simpl.
  rewrite Hkey. simpl. rewrite Hsig. simpl. rewrite Hsecret. simpl.
  rewrite Hbody. simpl. rewrite Hverify. simpl.
  unfold getEnv. fold put. rewrite Hput.
  destruct answer as [e|u]; simpl; [|done].
  unfold handler_catch, signature_error_type. by destruct (decide _).
Qed.

(** Case analysis on a run of the handler: [Hrun] names its outcome,
    [Hunfold] splits the handler into [try] and [catch], [Htry] says
    which runs the [try] block has. *)
Ltac handler_cases Hrun Hunfold Htry :=
  rewrite Hunfold in Hrun;
  destruct Htry; simpl in Hrun;
  injection Hrun as <- <-.

Ltac in_trace Hen :=
  repeat (apply elem_of_cons in Hen as [->|Hen]);
  try (by apply elem_of_nil in Hen).

(** C8. A request whose signature verification raises a Stripe
    signature-verification error is answered with 400 and the error's
    message; any other error raised in the handler is answered with 500;
    the answer is 200 exactly when the event was published, which
    happens only after the signature was verified, as the last call.
    A request that is verified is always handed to EventBridge, as the
    next and last call, and answered with 200 once that call resolves;
    a request whose verification is refused with a signature error is
    answered with 400 after three calls, nothing being published. *)
Theorem handler_status_codes (event : APIGatewayProxyEvent) (w : W)
    (res : Error + APIGatewayProxyResult) (st' : State W unit) :
  invoke env (the_handler event) w tt = (res, st') ->
  (forall en e,
      en ∈ trace st' -> is_constructEvent (ecall en) = true ->
      entry_error en = Some e -> err_type e = Some signature_error_type ->
      res = inr {| statusCode := 400;
                   result_body := "Webhook Error: " +:+ err_message e |})
  /\ (forall e,
         (invoke env (the_try event) w tt).1 = inl e ->
         err_type e <> Some signature_error_type ->
         res = inr {| statusCode := 500;
                      result_body := "Error: " +:+ err_message e |})
  /\ (published (trace st')
      <-> res = inr {| statusCode := 200; result_body := "Success" |})
  /\ (published (trace st') ->
      verified (trace st')
      /\ exists en, last (trace st') = Some en
                    /\ is_PutEvents (ecall en) = true /\ entry_ok en = true)
  /\ (forall (apiKey : string) (w1 : W) (signature endpointSecret : string) (w2 : W)
             (event_body : string) (eventReceived : gmap string value) (w3 : W)
             (answer : Error + unit) (w4 : W),
         let put :=
           eventBridge_PutEvents
             [ {| Detail := JSON_stringify (delete "type" eventReceived);
                  DetailType := eventReceived !! "type";
                  EventBusName := default "default" (process_env !! "EVENT_BUS_NAME");
                  Resources := [];
                  Source := process_env !! "SOURCE" |} ] in
         env (SecretKey_getValue SECRET_KEY_STRING 5) w = (inr apiKey, w1) ->
         present (headers event !! "Stripe-Signature") = Some signature ->
         env (SecretKey_getValue ENDPOINT_SECRET_STRING 5) w1
         = (inr endpointSecret, w2) ->
         present (body event) = Some event_body ->
         env (webhooks_constructEvent apiKey event_body signature endpointSecret) w2
         = (inr eventReceived, w3) ->
         env put w3 = (answer, w4) ->
         trace st'
         = [mkEntry (SecretKey_getValue SECRET_KEY_STRING 5) (inr apiKey);
            mkEntry (SecretKey_getValue ENDPOINT_SECRET_STRING 5) (inr endpointSecret);
            mkEntry (webhooks_constructEvent apiKey event_body signature endpointSecret)
                    (inr eventReceived);
            mkEntry put answer]
         /\ (forall u, answer = inr u ->
               res = inr {| statusCode := 200; result_body := "Success" |}))
  /\ (forall (apiKey : string) (w1 : W) (signature endpointSecret : string) (w2 : W)
             (event_body : string) (e : Error) (w3 : W),
         env (SecretKey_getValue SECRET_KEY_STRING 5) w = (inr apiKey, w1) ->
         present (headers event !! "Stripe-Signature") = Some signature ->
         env (SecretKey_getValue ENDPOINT_SECRET_STRING 5) w1
         = (inr endpointSecret, w2) ->
         present (body event) = Some event_body ->
         env (webhooks_constructEvent apiKey event_body signature endpointSecret) w2
         = (inl e, w3) ->
         err_type e = Some signature_error_type ->
         res = inr {| statusCode := 400;
                      result_body := "Webhook Error: " +:+ err_message e |}
         /\ trace st'
            = [mkEntry (SecretKey_getValue SECRET_KEY_STRING 5) (inr apiKey);
               mkEntry (SecretKey_getValue ENDPOINT_SECRET_STRING 5)
                       (inr endpointSecret);
               mkEntry (webhooks_constructEvent apiKey event_body signature
                          endpointSecret) (inl e)]).
Proof.
  intros Hrun.
  assert (Hold :
    (forall en e,
        en ∈ trace st' -> is_constructEvent (ecall en) = true ->
        entry_error en = Some e -> err_type e = Some signature_error_type ->
        res = inr {| statusCode := 400;
                     result_body := "Webhook Error: " +:+ err_message e |})
    /\ (forall e,
           (invoke env (the_try event) w tt).1 = inl e ->
           err_type e <> Some signature_error_type ->
           res = inr {| statusCode := 500;
                        result_body := "Error: " +:+ err_message e |})
    /\ (published (trace st')
        <-> res = inr {| statusCode := 200; result_body := "Success" |})
    /\ (published (trace st') ->
        verified (trace st')
        /\ exists en, last (trace st') = Some en
                      /\ is_PutEvents (ecall en) = true /\ entry_ok en = true)).
  { pose proof Hrun as Hrun'. unfold published, verified.
    handler_cases Hrun' handler_unfold (handler_try_run event w); simpl; split_and!.
    all: try (intros en e' Hen Hverify Herr Htype; in_trace Hen;
              simpl in Hverify, Herr; try discriminate;
              injection Herr as ->; by rewrite decide_True).
    all: try (intros e' [= <-] Htype; by rewrite decide_False).
    all: try (intros e' [=]; fail).
    all: rewrite ?Exists_cons, ?Exists_nil; simpl.
    all: try (split; [intuition discriminate | by destruct (decide _)]).
    all: try (intuition discriminate).
    all: try (by intros e' [= <-] _).
    intros _. split; [do 2 right; left; done | eexists; done]. }
  destruct Hold as (H400 & H500 & H200 & Hpub).
  split_and!; [exact H400 | exact H500 | exact H200 | exact Hpub | |].
  - intros apiKey w1 signature endpointSecret w2 event_body eventReceived w3
           answer w4 put Hkey Hsig Hsecret Hbody Hverify Hput.
    rewrite (handler_verified event w apiKey w1 signature endpointSecret w2
               event_body eventReceived w3 answer w4
               Hkey Hsig Hsecret Hbody Hverify Hput) in Hrun.
    injection Hrun as <- <-. split; [reflexivity|]. by intros u ->.
  - intros apiKey w1 signature endpointSecret w2 event_body e w3
           Hkey Hsig Hsecret Hbody Hverify Htype.
    rewrite (handler_verification_refused event w apiKey w1 signature endpointSecret
               w2 event_body e w3 Hkey Hsig Hsecret Hbody Hverify) in Hrun.
    injection Hrun as <- <-. by rewrite decide_True.
Qed.

(** C10. A request without the [Stripe-Signature] header, or with a
    null body, is answered with 500 and no event is handed to
    EventBridge (the secret service raising no Stripe error); and
    whenever the answer is not 200, no event was published. *)
Theorem missing_signature_or_body_is_500 (event : APIGatewayProxyEvent) (w : W)
    (res : Error + APIGatewayProxyResult) (st' : State W unit) :
  invoke env (the_handler event) w tt = (res, st') ->
  (secret_errors_plain env ->
   headers event !! "Stripe-Signature" = None \/ body event = None ->
   (exists msg, res = inr {| statusCode := 500; result_body := msg |})
   /\ Forall (fun en => is_PutEvents (ecall en) = false) (trace st'))
  /\ (forall resp, res = inr resp -> statusCode resp <> 200%Z ->
        ~ published (trace st')).
Proof.
  intros Hrun. unfold published.
  handler_cases Hrun handler_unfold (handler_try_run event w); simpl; split.
  all: try (intros Hplain [Hnone|Hnone];
            try (rewrite Hnone in *; discriminate);
            rewrite ?decide_False by (eapply Hplain; eassumption);
            (split; [eexists; reflexivity | by repeat constructor])).
  all: try (intros resp _ _; rewrite ?Exists_cons, ?Exists_nil; simpl;
            intuition discriminate).
  intros resp [= <-]. done.
Qed.
End EventBusProducerFacts.

(** ** Configuration injection *)

Section WithConfigurationFacts.
Import WithConfiguration WithConfigurationOutcomes.
Context {W : Type}.
Variable env : Env W.
Variable camelizeKeys : gmap string value -> WithConfiguration.

Ltac next_call H :=
  match type of H with
  | context [env ?c ?w] =>
      let r := fresh "r" in let w' := fresh "w" in let E := fresh "Ecall" in
      destruct (env c w) as [[r|r] w'] eqn:E; simpl in H
  end.

(** Whatever the wait for the active state yields, and whenever it
    yields it, an invocation that returns, returns the value
    [responseDetails] was initialised with. *)
Lemma updateLambdaCode_returns_initial_value
    (event : CloudFormationCustomResourceCreateEvent
             + CloudFormationCustomResourceUpdateEvent)
    (w : W) (s r : ResponseDetails) (st' : State W ResponseDetails) :
  invoke env (updateLambdaCode camelizeKeys event) w s = (inr r, st') ->
  r = internal_error (functionName (camelizeKeys (event_ResourceProperties event))).
Proof.
  unfold invoke, updateLambdaCode. simpl. intros Hrun.
  next_call Hrun; [done|].
  destruct (present r0) as [location|]; simpl in Hrun; [|done].
  do 6 (next_call Hrun; [done|]).
  next_call Hrun; by injection Hrun as <- _.
Qed.
End WithConfigurationFacts.

(** C1, on the code: the function [edge-fn] is updated and does go
    active, and the [.then] callback does store the success result with
    code SHA, version and ARN in [responseDetails]; but the invocation has
    returned before that, with the value [responseDetails] was initialised
    with: status [FAILED], reason [Internal Error], no response data. *)
Theorem updateLambdaCode_returns_before_wait_settles :
  let out := invoke Fixture.env
               (WithConfiguration.handleCreate Fixture.camelizeKeys_configuration
                  Scenarios.edge_create_event)
               Fixture.up Scenarios.undeclared in
  out.1 = inr (WithConfigurationOutcomes.internal_error "edge-fn")
  /\ WithConfigurationOutcomes.went_active (trace out.2)
  /\ var out.2
     = WithConfigurationOutcomes.active "edge-fn"
         {| CodeSha256 := Some "c0de";
            Version := Some "7";
            FunctionArn := Some "arn:aws:lambda:us-east-1:1:function:edge-fn" |}
  /\ WithConfiguration.responseStatus (var out.2) = "SUCCESS"
  /\ out.1 <> inr (var out.2).
Proof.
  vm_compute. split_and!; try reflexivity.
  - do 7 apply Exists_cons_tl. apply Exists_cons_hd. done.
  - discriminate.
Qed.

(** The same on an update, and when the wait times out: the invocation
    returns the same initial value either way. *)
Example updateLambdaCode_result_is_blind_to_the_wait :
  (invoke Fixture.env
     (WithConfiguration.handleUpdate Fixture.camelizeKeys_configuration
        Scenarios.edge_update_event)
     Fixture.up Scenarios.undeclared).1
  = (invoke Fixture.env
       (WithConfiguration.handleUpdate Fixture.camelizeKeys_configuration
          Scenarios.edge_update_event)
       Scenarios.never_active Scenarios.undeclared).1.
Proof. vm_compute. reflexivity. Qed.

(** *** The producer and the retry on concrete requests *)

Lemma fixture_secret_errors_plain :
  EventBusProducerRuns.secret_errors_plain Fixture.env.
Proof.
  intros s n w e w'. simpl.
  destruct (Fixture.secrets_reachable w); intros [= <- _]; discriminate.
Qed.

Example producer_answers :
  (invoke Fixture.env (Scenarios.producer Scenarios.signed_request) Fixture.up tt).1
  = inr {| EventBusProducer.statusCode := 200;
           EventBusProducer.result_body := "Success" |}
  /\ (invoke Fixture.env (Scenarios.producer Scenarios.unsigned_request) Fixture.up tt).1
     = inr {| EventBusProducer.statusCode := 500;
              EventBusProducer.result_body := "Error: Stripe signature is missing" |}
  /\ (invoke Fixture.env (Scenarios.producer Scenarios.bodyless_request) Fixture.up tt).1
     = inr {| EventBusProducer.statusCode := 500;
              EventBusProducer.result_body := "Error: event body undefined or null" |}.
Proof. vm_compute. done. Qed.

Lemma handler_status_codes_witness :
  let forged := invoke Fixture.env (Scenarios.producer Scenarios.forged_request)
                  Fixture.up tt in
  let signed := invoke Fixture.env (Scenarios.producer Scenarios.signed_request)
                  Fixture.up tt in
  forged.1
  = inr {| EventBusProducer.statusCode := 400;
           EventBusProducer.result_body :=
             "Webhook Error: " +:+ err_message Fixture.signature_mismatch |}
  /\ (trace signed.2
      = [mkEntry (SecretKey_getValue "sk" 5) (inr "value of sk");
         mkEntry (SecretKey_getValue "whsec" 5) (inr "value of whsec");
         mkEntry (webhooks_constructEvent "value of sk" "{}" "t=1,v1=valid"
                    "value of whsec") (inr MoreRequests.verified_event);
         mkEntry MoreRequests.put_verified_event (inr tt)]
      /\ signed.1
         = inr {| EventBusProducer.statusCode := 200;
                  EventBusProducer.result_body := "Success" |})
  /\ (forged.1
      = inr {| EventBusProducer.statusCode := 400;
               EventBusProducer.result_body :=
                 "Webhook Error: " +:+ err_message Fixture.signature_mismatch |}
      /\ trace forged.2
         = [mkEntry (SecretKey_getValue "sk" 5) (inr "value of sk");
            mkEntry (SecretKey_getValue "whsec" 5) (inr "value of whsec");
            Scenarios.refused_verification]).
Proof.
  intros forged signed.
  destruct (handler_status_codes Fixture.env "sk" "whsec" {[ "SOURCE" := "stripe" ]}
              (fun _ => "{}") Scenarios.forged_request Fixture.up
              forged.1 forged.2) as (H400 & _ & _ & _ & _ & Hrefused).
  { vm_compute. reflexivity. }
  destruct (handler_status_codes Fixture.env "sk" "whsec" {[ "SOURCE" := "stripe" ]}
              (fun _ => "{}") Scenarios.signed_request Fixture.up
              signed.1 signed.2) as (_ & _ & _ & _ & Hverified & _).
  { vm_compute. reflexivity. }
  split; [|split].
  - apply (H400 Scenarios.refused_verification Fixture.signature_mismatch).
    + vm_compute. do 2 apply list_elem_of_further. apply list_elem_of_here.
    + reflexivity.
    + reflexivity.
    + reflexivity.
  - destruct (Hverified "value of sk" Fixture.up "t=1,v1=valid" "value of whsec"
                Fixture.up "{}" MoreRequests.verified_event Fixture.up
                (inr tt) Fixture.up) as [Htrace H200]; try reflexivity.
    split; [exact Htrace | exact (H200 tt eq_refl)].
  - apply (Hrefused "value of sk" Fixture.up "t=1,v1=forged" "value of whsec"
             Fixture.up "{}" Fixture.signature_mismatch Fixture.up); reflexivity.
Defined.

Lemma missing_signature_or_body_is_500_witness :
  (exists msg,
      (invoke Fixture.env (Scenarios.producer Scenarios.unsigned_request) Fixture.up tt).1
      = inr {| EventBusProducer.statusCode := 500;
               EventBusProducer.result_body := msg |})
  /\ Forall (fun en => is_PutEvents (ecall en) = false)
       (trace (invoke Fixture.env (Scenarios.producer Scenarios.unsigned_request)
                 Fixture.up tt).2).
Proof.
  destruct (missing_signature_or_body_is_500 Fixture.env "sk" "whsec"
              {[ "SOURCE" := "stripe" ]} (fun _ => "{}")
              Scenarios.unsigned_request Fixture.up
              (invoke Fixture.env (Scenarios.producer Scenarios.unsigned_request)
                 Fixture.up tt).1
              (invoke Fixture.env (Scenarios.producer Scenarios.unsigned_request)
                 Fixture.up tt).2) as [H500 _].
  { vm_compute. reflexivity. }
  apply H500.
  - apply fixture_secret_errors_plain.
  - left. reflexivity.
Defined.

(** Two timeouts on the wire are absorbed by the retry of the first call:
    the create succeeds after five attempts in all.  Seven timeouts
    exhaust the budget of the first call after five attempts. *)
Example flaky_wire_is_retried :
  let create := StripeWebhook.handleCreate Fixture.camelizeKeys Scenarios.create_event in
  let absorbed := invoke (Sdk.client Flaky.transient Flaky.wire) create (2%nat, []) tt in
  let exhausted := invoke (Sdk.client Flaky.transient Flaky.wire) create (7%nat, []) tt in
  absorbed.1 = inr Scenarios.redacted_return
  /\ length (world absorbed.2).2 = 5%nat
  /\ exhausted.1 = inl Fixture.transport_timeout
  /\ length (world exhausted.2).2 = 5%nat
  /\ length (trace exhausted.2) = 1%nat.
Proof. vm_compute. done. Qed.

(** An error that is not transient is final: one attempt, no retry. *)
Example validation_error_is_not_retried :
  let create := StripeWebhook.handleCreate Fixture.camelizeKeys Scenarios.create_event in
  let out := invoke (Sdk.client (fun _ => false) Flaky.wire) create (7%nat, []) tt in
  out.1 = inl Fixture.transport_timeout /\ length (world out.2).2 = 1%nat.
Proof. vm_compute. done. Qed.


(** * Further properties of the handlers *)

(** ** Stripe webhook *)

Section StripeWebhookMore.
Import StripeWebhook StripeWebhookRuns.
Context {W : Type}.
Variable env : Env W.
Variable camelizeKeys : gmap string value -> WebhookProps.

Ltac run_cases Hrun Hfact :=
let Hc := fresh "Hc" in
pose proof Hfact as Hc; rewrite Hrun in Hc;
inversion Hc; subst; clear Hc.

Ltac in_trace Hen :=
repeat (apply elem_of_cons in Hen as [->|Hen]);
try (by apply elem_of_nil in Hen).

(** X1. Stripe is only ever called with the key that the resolution of
  [secretKeyString] returned, as the first call of the invocation; so
  when that resolution fails, Stripe is not called at all. *)
Theorem stripe_calls_use_the_resolved_key
  (ce : CloudFormationCustomResourceCreateEvent)
  (ue : CloudFormationCustomResourceUpdateEvent)
  (de : CloudFormationCustomResourceDeleteEvent) (w : W) :
(forall res st' en key,
    invoke env (handleCreate camelizeKeys ce) w tt = (res, st') ->
    en ∈ trace st' -> api_key_of (ecall en) = Some key ->
    head (trace st')
    = Some (mkEntry (getKey (camelizeKeys (create_ResourceProperties ce))) (inr key)))
/\ (forall res st' en key,
       invoke env (handleUpdate camelizeKeys ue) w tt = (res, st') ->
       en ∈ trace st' -> api_key_of (ecall en) = Some key ->
       head (trace st')
       = Some (mkEntry (getKey (camelizeKeys (update_ResourceProperties ue))) (inr key)))
/\ (forall res st' en key,
       invoke env (handleDelete camelizeKeys de) w tt = (res, st') ->
       en ∈ trace st' -> api_key_of (ecall en) = Some key ->
       head (trace st')
       = Some (mkEntry (getKey (camelizeKeys (delete_ResourceProperties de))) (inr key))).
Proof.
split_and!; intros res st' en key' Hrun Hen Hkey.
- run_cases Hrun (handleCreate_run env camelizeKeys ce w);
    in_trace Hen; simpl in Hkey; try discriminate; by injection Hkey as ->.
- run_cases Hrun (handleUpdate_run env camelizeKeys ue w);
    in_trace Hen; simpl in Hkey; try discriminate; by injection Hkey as ->.
- run_cases Hrun (handleDelete_run env camelizeKeys de w);
    in_trace Hen; simpl in Hkey; try discriminate; by injection Hkey as ->.
Qed.


(** X3. An update never redacts and never stores: whatever the resource
  properties say about a secret store, an update that returns has
  written nothing to it and returns Stripe's answer to the update call
  as it is, with that answer's [id] as the physical id. *)
Theorem handleUpdate_returns_response_unchanged
  (event : CloudFormationCustomResourceUpdateEvent) (w : W)
  (r : ResourceHandlerReturn) (st' : State W unit) :
invoke env (handleUpdate camelizeKeys event) w tt = (inr r, st') ->
exists en data,
  last (trace st') = Some en
  /\ updated en = Some data
  /\ responseData r = data
  /\ physicalResourceId r = data !! "id"
  /\ Forall (fun en => is_putSecret (ecall en) = false) (trace st').
Proof.
intros Hrun.
run_cases Hrun (handleUpdate_run env camelizeKeys event w).
eexists _, data. split_and!; try reflexivity.
by repeat constructor.
Qed.

(** X4. A create is not undone: when it throws although Stripe created
  the endpoint, the error is the one the secret store raised for the
  write of the endpoint's signing secret, the last call made; the id of
  the endpoint is not reported. *)
Theorem handleCreate_fails_after_creation_only_at_the_store
  (event : CloudFormationCustomResourceCreateEvent) (w : W)
  (e : Error) (st' : State W unit) (data : gmap string value) :
invoke env (handleCreate camelizeKeys event) w tt = (inl e, st') ->
api_response (trace st') = Some data ->
exists store secret en,
  secret_to_store (camelizeKeys (create_ResourceProperties event)) data
  = Some (store, secret)
  /\ last (trace st') = Some en
  /\ ecall en = SecretKeyStore_putSecret store 5 secret
  /\ entry_error en = Some e.
Proof.
intros Hrun Hdata.
run_cases Hrun (handleCreate_run env camelizeKeys event w);
  simpl in Hdata; try discriminate.
injection Hdata as ->.
eexists store, secret, _. split_and!; [done|reflexivity|reflexivity|reflexivity].
Qed.
End StripeWebhookMore.

Lemma stripe_calls_use_the_resolved_key_witness :
  head (trace (invoke Fixture.env
                 (StripeWebhook.handleDelete Fixture.camelizeKeys Scenarios.delete_event)
                 Scenarios.with_endpoint tt).2)
  = Some (mkEntry (SecretKey_getValue "sk" 5) (inr "value of sk")).
Proof.
  apply (proj2 (proj2 (stripe_calls_use_the_resolved_key Fixture.env Fixture.camelizeKeys
                         Scenarios.create_event Scenarios.update_event
                         Scenarios.delete_event Scenarios.with_endpoint))
           (invoke Fixture.env
              (StripeWebhook.handleDelete Fixture.camelizeKeys Scenarios.delete_event)
              Scenarios.with_endpoint tt).1
           (invoke Fixture.env
              (StripeWebhook.handleDelete Fixture.camelizeKeys Scenarios.delete_event)
              Scenarios.with_endpoint tt).2
           (mkEntry (webhookEndpoints_del "value of sk" "we_123" 5)
                    (inr {[ "id" := VStr "we_123"; "deleted" := VBool true ]}))
           "value of sk").
  - vm_compute. reflexivity.
  - vm_compute. apply list_elem_of_further, list_elem_of_here.
  - reflexivity.
Defined.


Lemma handleUpdate_returns_response_unchanged_witness :
  let st' := (invoke Relabel.env
                (StripeWebhook.handleUpdate Fixture.camelizeKeys
                   Relabel.update_event_with_store)
                Scenarios.with_endpoint tt).2 in
  exists en data,
    last (trace st') = Some en
    /\ updated en = Some data
    /\ StripeWebhook.responseData Relabel.relabelled_return = data
    /\ StripeWebhook.physicalResourceId Relabel.relabelled_return = data !! "id"
    /\ Forall (fun en => is_putSecret (ecall en) = false) (trace st').
Proof.
  apply (handleUpdate_returns_response_unchanged Relabel.env Fixture.camelizeKeys
           Relabel.update_event_with_store Scenarios.with_endpoint
           Relabel.relabelled_return).
  vm_compute. reflexivity.
Defined.

Lemma handleCreate_fails_after_creation_only_at_the_store_witness :
  exists store secret en,
    secret_to_store
      (Fixture.camelizeKeys (create_ResourceProperties Scenarios.create_event))
      Scenarios.stripe_answer = Some (store, secret)
    /\ last (trace (invoke StoreDown.env
                      (StripeWebhook.handleCreate Fixture.camelizeKeys
                         Scenarios.create_event)
                      Fixture.up tt).2) = Some en
    /\ ecall en = SecretKeyStore_putSecret store 5 secret
    /\ entry_error en = Some StoreDown.access_denied.
Proof.
  apply (handleCreate_fails_after_creation_only_at_the_store StoreDown.env
           Fixture.camelizeKeys Scenarios.create_event Fixture.up
           StoreDown.access_denied
           (invoke StoreDown.env
              (StripeWebhook.handleCreate Fixture.camelizeKeys Scenarios.create_event)
              Fixture.up tt).2).
  - vm_compute. reflexivity.
  - vm_compute. reflexivity.
Defined.

(** ** Event-bus producer *)

Section EventBusProducerMore.
Import EventBusProducer EventBusProducerRuns.
Context {W : Type}.
Variable env : Env W.
Variables SECRET_KEY_STRING ENDPOINT_SECRET_STRING : string.
Variable process_env : gmap string string.
Variable JSON_stringify : gmap string value -> string.

Abbreviation producer_handler :=
(handler SECRET_KEY_STRING ENDPOINT_SECRET_STRING process_env JSON_stringify).

(** X5. As long as what a service rejects with is an error object,
  the producer never throws: whatever fails, API Gateway gets a
  response, and its status is 200, 400 or 500.  (A rejection with
  [null] or [undefined], on which the read of [error.type] in the
  [catch] block would itself throw, is not a value of [Error].) *)
Theorem handler_always_answers (event : APIGatewayProxyEvent) (w : W) :
exists resp,
  (invoke env (producer_handler event) w tt).1 = inr resp
  /\ (statusCode resp = 200%Z \/ statusCode resp = 400%Z \/ statusCode resp = 500%Z).
Proof.
rewrite handler_unfold.
destruct (handler_try_run env SECRET_KEY_STRING ENDPOINT_SECRET_STRING process_env
            JSON_stringify event w); simpl;
  eexists; (split; [reflexivity|]); try destruct (decide _); simpl; auto.
Qed.

(** X6. An empty [Stripe-Signature] header counts as a missing one, and
  an empty body as a null one.  With the API key resolved, such a header
  is answered with 500 [Stripe signature is missing] before the endpoint
  secret is looked up; with both secrets resolved and a signature
  present, such a body is answered with 500 [event body undefined or
  null] without any verification. *)
Theorem empty_signature_or_body_counts_as_missing
  (event : APIGatewayProxyEvent) (w : W) (apiKey : string) (w1 : W) :
env (SecretKey_getValue SECRET_KEY_STRING 5) w = (inr apiKey, w1) ->
(headers event !! "Stripe-Signature" = None
 \/ headers event !! "Stripe-Signature" = Some "" ->
 invoke env (producer_handler event) w tt
 = (inr {| statusCode := 500;
           result_body := "Error: Stripe signature is missing" |},
    mkState w1 tt [mkEntry (SecretKey_getValue SECRET_KEY_STRING 5) (inr apiKey)]))
/\ (forall signature endpointSecret w2,
       present (headers event !! "Stripe-Signature") = Some signature ->
       env (SecretKey_getValue ENDPOINT_SECRET_STRING 5) w1 = (inr endpointSecret, w2) ->
       body event = None \/ body event = Some "" ->
       invoke env (producer_handler event) w tt
       = (inr {| statusCode := 500;
                 result_body := "Error: event body undefined or null" |},
          mkState w2 tt
            [mkEntry (SecretKey_getValue SECRET_KEY_STRING 5) (inr apiKey);
             mkEntry (SecretKey_getValue ENDPOINT_SECRET_STRING 5)
                     (inr endpointSecret)])).
Proof.
intros Hkey. split.
- intros Hsig. unfold invoke, handler, handler_try. simpl. rewrite Hkey. simpl.
  by destruct Hsig as [-> | ->].
- intros signature endpointSecret w2 Hsig Hsecret Hbody.
  unfold invoke, handler, handler_try. simpl. rewrite Hkey. simpl.
  rewrite Hsig. simpl. rewrite Hsecret. simpl.
  by destruct Hbody as [-> | ->].
Qed.

(** X7. What is published is what was verified: whenever an event is
  handed to EventBridge, the invocation consisted of resolving the API
  key and the endpoint secret, verifying the request's own body against
  the request's own signature with that secret, and one PutEvents call
  with a single entry made of the verified event: its [type] as the
  detail type, the rest of it as the detail, on the bus
  [EVENT_BUS_NAME] or [default]. *)
Theorem published_event_is_the_verified_one
  (event : APIGatewayProxyEvent) (w : W)
  (res : Error + APIGatewayProxyResult) (st' : State W unit) :
invoke env (producer_handler event) w tt = (res, st') ->
published (trace st') ->
exists apiKey endpointSecret signature event_body eventReceived,
  present (headers event !! "Stripe-Signature") = Some signature
  /\ present (body event) = Some event_body
  /\ trace st'
     = [mkEntry (SecretKey_getValue SECRET_KEY_STRING 5) (inr apiKey);
        mkEntry (SecretKey_getValue ENDPOINT_SECRET_STRING 5) (inr endpointSecret);
        mkEntry (webhooks_constructEvent apiKey event_body signature endpointSecret)
                (inr eventReceived);
        mkEntry (eventBridge_PutEvents
                   [ {| Detail := JSON_stringify (delete "type" eventReceived);
                        DetailType := eventReceived !! "type";
                        EventBusName :=
                          default "default" (process_env !! "EVENT_BUS_NAME");
                        Resources := [];
                        Source := process_env !! "SOURCE" |} ])
                (inr tt)].
Proof.
intros Hrun Hpub. unfold published in Hpub.
rewrite handler_unfold in Hrun.
destruct (handler_try_run env SECRET_KEY_STRING ENDPOINT_SECRET_STRING process_env
            JSON_stringify event w); simpl in Hrun; injection Hrun as <- <-;
  simpl in Hpub; rewrite ?Exists_cons, ?Exists_nil in Hpub; simpl in Hpub.
all: try (exfalso; intuition discriminate).
destruct u. eexists apiKey, endpointSecret, signature, event_body, eventReceived.
split_and!; [assumption|assumption|reflexivity].
Qed.
End EventBusProducerMore.

Lemma empty_signature_or_body_counts_as_missing_witness :
  invoke Fixture.env (Scenarios.producer MoreRequests.blank_signature_request)
    Fixture.up tt
  = (inr {| EventBusProducer.statusCode := 500;
            EventBusProducer.result_body := "Error: Stripe signature is missing" |},
     mkState Fixture.up tt [mkEntry (SecretKey_getValue "sk" 5) (inr "value of sk")]).
Proof.
  apply (proj1 (empty_signature_or_body_counts_as_missing Fixture.env "sk" "whsec"
                  {[ "SOURCE" := "stripe" ]} (fun _ => "{}")
                  MoreRequests.blank_signature_request Fixture.up
                  "value of sk" Fixture.up eq_refl)).
  right. reflexivity.
Defined.

Lemma published_event_is_the_verified_one_witness :
  exists apiKey endpointSecret signature event_body eventReceived,
    present (EventBusProducer.headers Scenarios.signed_request !! "Stripe-Signature")
    = Some signature
    /\ present (EventBusProducer.body Scenarios.signed_request) = Some event_body
    /\ trace (invoke Fixture.env (Scenarios.producer Scenarios.signed_request)
                Fixture.up tt).2
       = [mkEntry (SecretKey_getValue "sk" 5) (inr apiKey);
          mkEntry (SecretKey_getValue "whsec" 5) (inr endpointSecret);
          mkEntry (webhooks_constructEvent apiKey event_body signature endpointSecret)
                  (inr eventReceived);
          mkEntry (eventBridge_PutEvents
                     [ {| Detail := "{}";
                          DetailType := eventReceived !! "type";
                          EventBusName :=
                            default "default"
                              (({[ "SOURCE" := "stripe" ]} : gmap string string)
                                 !! "EVENT_BUS_NAME");
                          Resources := [];
                          Source := ({[ "SOURCE" := "stripe" ]} : gmap string string)
                                      !! "SOURCE" |} ])
                  (inr tt)].
Proof.
  apply (published_event_is_the_verified_one Fixture.env "sk" "whsec"
           {[ "SOURCE" := "stripe" ]} (fun _ => "{}")
           Scenarios.signed_request Fixture.up
           (invoke Fixture.env (Scenarios.producer Scenarios.signed_request)
              Fixture.up tt).1
           (invoke Fixture.env (Scenarios.producer Scenarios.signed_request)
              Fixture.up tt).2).
  - vm_compute. reflexivity.
  - vm_compute. do 3 apply Exists_cons_tl. apply Exists_cons_hd. done.
Defined.

(** ** Configuration injection *)

Section WithConfigurationMoreFacts.
Import WithConfiguration WithConfigurationOutcomes WithConfigurationMore.
Context {W : Type}.
Variable env : Env W.
Variable camelizeKeys : gmap string value -> WithConfiguration.

Ltac next_call H :=
match type of H with
| context [env ?c ?w] =>
    let r := fresh "r" in let w' := fresh "w" in let E := fresh "Ecall" in
    destruct (env c w) as [[r|r] w'] eqn:E; simpl in H
end.

(** X8. When Lambda reports no location for the function's code (none,
  or an empty one), the injection throws [The code of the lambda
  function ... could not be downloaded.] and has done nothing else:
  [GetFunction] is the only call, nothing is downloaded, written or
  uploaded. *)
Theorem missing_code_location_stops_before_any_change
  (event : CloudFormationCustomResourceCreateEvent
           + CloudFormationCustomResourceUpdateEvent)
  (w : W) (s : ResponseDetails) (location : option string) (w1 : W) :
let props := camelizeKeys (event_ResourceProperties event) in
env (lambda_GetFunction (region props) (functionName props)) w = (inr location, w1) ->
location = None \/ location = Some "" ->
invoke env (updateLambdaCode camelizeKeys event) w s
= (inl (new_Error ("The code of the lambda function " +:+ functionName props
                   +:+ " could not be downloaded.")),
   mkState w1 s
     [mkEntry (lambda_GetFunction (region props) (functionName props))
              (inr location)]).
Proof.
intros props Hget Hnone. unfold invoke, updateLambdaCode. simpl.
fold props. rewrite Hget. simpl.
by destruct Hnone as [-> | ->].
Qed.

(** X9. An injection that throws has changed nothing at Lambda: no
  [UpdateFunctionCode] call succeeded, the wait for the active state
  was not started, and [responseDetails] was never assigned. *)
Theorem updateLambdaCode_throws_only_before_the_update
  (event : CloudFormationCustomResourceCreateEvent
           + CloudFormationCustomResourceUpdateEvent)
  (w : W) (s : ResponseDetails) (e : Error) (st' : State W ResponseDetails) :
invoke env (updateLambdaCode camelizeKeys event) w s = (inl e, st') ->
Forall (fun en => is_wait (ecall en) = false
                  /\ (is_update_code (ecall en) = true -> entry_ok en = false))
       (trace st')
/\ var st' = s.
Proof.
unfold invoke, updateLambdaCode. simpl. intros Hrun.
next_call Hrun.
{ injection Hrun as <- <-. simpl. split; [|done]. repeat constructor; done. }
destruct (present r) as [location|]; simpl in Hrun.
2: { injection Hrun as <- <-. simpl. split; [|done]. repeat constructor; done. }
do 6 (next_call Hrun;
      [ injection Hrun as <- <-; simpl; split; [|done];
        repeat constructor; done | ]).
next_call Hrun; discriminate.
Qed.

(** X10. How the steps of a returning injection feed each other: the
  code is downloaded from the location Lambda reported, extracted into
  the fresh temporary directory, the configuration is then written to
  [configuration.json] in that directory (over a file of that name from
  the package), that directory is zipped, that zip is uploaded for the
  same function with [Publish], and the wait is started for the same
  function in the same region with a budget of 60 seconds. *)
Theorem updateLambdaCode_steps_feed_each_other
  (event : CloudFormationCustomResourceCreateEvent
           + CloudFormationCustomResourceUpdateEvent)
  (w : W) (s r : ResponseDetails) (st' : State W ResponseDetails) :
let props := camelizeKeys (event_ResourceProperties event) in
invoke env (updateLambdaCode camelizeKeys event) w s = (inr r, st') ->
exists code location data tempDir newLambdaZip out outcome,
  present code = Some location
  /\ trace st'
     = [mkEntry (lambda_GetFunction (region props) (functionName props)) (inr code);
        mkEntry (axios_get location) (inr data);
        mkEntry (mkdtempSync "/tmp/lambda-package") (inr tempDir);
        mkEntry (Zip_extractAllTo data tempDir) (inr tt);
        mkEntry (writeFileSync (tempDir +:+ "/configuration.json")
                   (configuration props)) (inr tt);
        mkEntry (Zip_addLocalFolder_toBuffer tempDir) (inr newLambdaZip);
        mkEntry (lambda_UpdateFunctionCode (region props) (functionName props)
                   newLambdaZip true) (inr out);
        mkEntry (waitUntilFunctionActiveV2 (region props) 60 (functionName props))
                outcome].
Proof.
intros props. unfold invoke, updateLambdaCode. simpl. fold props. intros Hrun.
next_call Hrun; [done|].
destruct (present r0) as [location|] eqn:Hloc; simpl in Hrun; [|done].
do 6 (next_call Hrun; [done|]).
exists r0, location, r1, r2, r5, r6.
destruct r3, r4.
next_call Hrun; injection Hrun as _ <-; eexists; (split; [done|reflexivity]).
Qed.

(** X11. The callbacks do record the outcome of the wait, after the
  return: an injection that returns, returns the initial [FAILED] /
  [Internal Error] value, while [responseDetails] ends up holding the
  [SUCCESS] value with code SHA, version and ARN of the upload when the
  wait resolved, and the [FAILED] value with the wait's error text when
  it rejected; the physical id is the function name in all of them. *)
Theorem callbacks_record_the_wait_outcome_after_the_return
  (event : CloudFormationCustomResourceCreateEvent
           + CloudFormationCustomResourceUpdateEvent)
  (w : W) (s r : ResponseDetails) (st' : State W ResponseDetails) :
let props := camelizeKeys (event_ResourceProperties event) in
invoke env (updateLambdaCode camelizeKeys event) w s = (inr r, st') ->
exists steps newLambdaZip out outcome,
  trace st'
  = steps ++ [mkEntry (lambda_UpdateFunctionCode (region props) (functionName props)
                         newLambdaZip true) (inr out);
              mkEntry (waitUntilFunctionActiveV2 (region props) 60
                         (functionName props)) outcome]
  /\ r = internal_error (functionName props)
  /\ var st' = recorded (functionName props) out outcome
  /\ physicalResourceId r = functionName props
  /\ physicalResourceId (var st') = functionName props.
Proof.
intros props. unfold invoke, updateLambdaCode. simpl. fold props. intros Hrun.
next_call Hrun; [done|].
destruct (present r0) as [location|] eqn:Hloc; simpl in Hrun; [|done].
do 6 (next_call Hrun; [done|]).
next_call Hrun; injection Hrun as <- <-; simpl;
  eexists [_; _; _; _; _; _], _, _, _;
  (split_and!; [reflexivity|reflexivity|reflexivity|reflexivity|reflexivity]).
Qed.
End WithConfigurationMoreFacts.

Lemma missing_code_location_stops_before_any_change_witness :
  invoke WithConfigurationMore.env_without_code
    (WithConfiguration.updateLambdaCode Fixture.camelizeKeys_configuration
       (inl Scenarios.edge_create_event))
    Fixture.up Scenarios.undeclared
  = (inl (new_Error "The code of the lambda function edge-fn could not be downloaded."),
     mkState Fixture.up Scenarios.undeclared
       [mkEntry (lambda_GetFunction "us-east-1" "edge-fn") (inr None)]).
Proof.
  apply (missing_code_location_stops_before_any_change
           WithConfigurationMore.env_without_code Fixture.camelizeKeys_configuration
           (inl Scenarios.edge_create_event) Fixture.up Scenarios.undeclared
           None Fixture.up eq_refl).
  left. reflexivity.
Defined.

Lemma updateLambdaCode_throws_only_before_the_update_witness :
  let st' := (invoke WithConfigurationMore.env_without_download
                (WithConfiguration.updateLambdaCode Fixture.camelizeKeys_configuration
                   (inl Scenarios.edge_create_event))
                Fixture.up Scenarios.undeclared).2 in
  Forall (fun en => WithConfigurationOutcomes.is_wait (ecall en) = false
                    /\ (WithConfigurationMore.is_update_code (ecall en) = true ->
                        entry_ok en = false))
         (trace st')
  /\ var st' = Scenarios.undeclared.
Proof.
  apply (updateLambdaCode_throws_only_before_the_update
           WithConfigurationMore.env_without_download
           Fixture.camelizeKeys_configuration
           (inl Scenarios.edge_create_event) Fixture.up Scenarios.undeclared
           WithConfigurationMore.download_failed).
  vm_compute. reflexivity.
Defined.

Lemma updateLambdaCode_steps_feed_each_other_witness :
  exists code location data tempDir newLambdaZip out outcome,
    present code = Some location
    /\ trace (invoke Fixture.env
                (WithConfiguration.updateLambdaCode Fixture.camelizeKeys_configuration
                   (inr Scenarios.edge_update_event))
                Fixture.up Scenarios.undeclared).2
       = [mkEntry (lambda_GetFunction "us-east-1" "edge-fn") (inr code);
          mkEntry (axios_get location) (inr data);
          mkEntry (mkdtempSync "/tmp/lambda-package") (inr tempDir);
          mkEntry (Zip_extractAllTo data tempDir) (inr tt);
          mkEntry (writeFileSync (tempDir +:+ "/configuration.json") "{}") (inr tt);
          mkEntry (Zip_addLocalFolder_toBuffer tempDir) (inr newLambdaZip);
          mkEntry (lambda_UpdateFunctionCode "us-east-1" "edge-fn" newLambdaZip true)
                  (inr out);
          mkEntry (waitUntilFunctionActiveV2 "us-east-1" 60 "edge-fn") outcome].
Proof.
  apply (updateLambdaCode_steps_feed_each_other Fixture.env
           Fixture.camelizeKeys_configuration
           (inr Scenarios.edge_update_event) Fixture.up Scenarios.undeclared
           (WithConfigurationOutcomes.internal_error "edge-fn")
           (invoke Fixture.env
              (WithConfiguration.updateLambdaCode Fixture.camelizeKeys_configuration
                 (inr Scenarios.edge_update_event))
              Fixture.up Scenarios.undeclared).2).
  vm_compute. reflexivity.
Defined.

Lemma callbacks_record_the_wait_outcome_after_the_return_witness :
  let st' := (invoke Fixture.env
                (WithConfiguration.updateLambdaCode Fixture.camelizeKeys_configuration
                   (inl Scenarios.edge_create_event))
                Scenarios.never_active Scenarios.undeclared).2 in
  exists steps newLambdaZip out outcome,
    trace st'
    = steps ++ [mkEntry (lambda_UpdateFunctionCode "us-east-1" "edge-fn"
                           newLambdaZip true) (inr out);
                mkEntry (waitUntilFunctionActiveV2 "us-east-1" 60 "edge-fn") outcome]
    /\ WithConfigurationOutcomes.internal_error "edge-fn"
       = WithConfigurationOutcomes.internal_error "edge-fn"
    /\ var st' = WithConfigurationMore.recorded "edge-fn" out outcome
    /\ WithConfiguration.physicalResourceId
         (WithConfigurationOutcomes.internal_error "edge-fn") = "edge-fn"
    /\ WithConfiguration.physicalResourceId (var st') = "edge-fn".
Proof.
  apply (callbacks_record_the_wait_outcome_after_the_return Fixture.env
           Fixture.camelizeKeys_configuration
           (inl Scenarios.edge_create_event) Scenarios.never_active
           Scenarios.undeclared
           (WithConfigurationOutcomes.internal_error "edge-fn")
           (invoke Fixture.env
              (WithConfiguration.updateLambdaCode Fixture.camelizeKeys_configuration
                 (inl Scenarios.edge_create_event))
              Scenarios.never_active Scenarios.undeclared).2).
  vm_compute. reflexivity.
Defined.

(** [Error.prototype.toString] on the three shapes of an error. *)
Example Error_toString_follows_javascript :
  Error_toString {| err_name := "TimeoutError"; err_type := None;
                    err_code := None; err_message := "" |} = "TimeoutError"
  /\ Error_toString {| err_name := ""; err_type := None;
                       err_code := None; err_message := "timed out" |} = "timed out"
  /\ Error_toString Fixture.waiter_timeout = "TimeoutError: Waiter has timed out".
Proof. vm_compute. done. Qed.

(** * The constructs *)

(** ** Full-region backup *)

Section FullRegionBackupFacts.
Import Cdk FullRegionBackup.

Lemma has_space_head (a : Ascii.ascii) (s : string) :
has_space (String a s) = false -> a <> space /\ has_space s = false.
Proof.
simpl. destruct (Ascii.eqb_spec a space); [done|]. by intros ->.
Qed.

Lemma append_nil_l (r : string) : "" +:+ r = r.
Proof. reflexivity. Qed.

Lemma append_cons (a : Ascii.ascii) (x r : string) :
String a x +:+ r = String a (x +:+ r).
Proof. reflexivity. Qed.

(** A name is cut out of a joined string at the first space. *)
Lemma name_is_cut_at_space (x : string) :
forall y r1 r2,
  has_space x = false -> has_space y = false ->
  after_name r1 -> after_name r2 ->
  x +:+ r1 = y +:+ r2 -> x = y /\ r1 = r2.
Proof.
induction x as [|a x IH]; intros [|b y] r1 r2 Hx Hy Hr1 Hr2;
  rewrite ?append_nil_l, ?append_cons.
- done.
- intros ->. apply has_space_head in Hy as [Hb _].
  destruct Hr1 as [Hr1|[r' Hr1]]; [done|]. by injection Hr1 as -> _.
- intros <-. apply has_space_head in Hx as [Ha _].
  destruct Hr2 as [Hr2|[r' Hr2]]; [done|]. by injection Hr2 as -> _.
- intros [= -> Heq].
  apply has_space_head in Hx as [_ Hx]. apply has_space_head in Hy as [_ Hy].
  destruct (IH y r1 r2 Hx Hy Hr1 Hr2 Heq) as [-> ->]. done.
Qed.

Lemma join_cons (x : string) (l : list string) :
join " " (x :: l)
= x +:+ match l with [] => "" | _ :: _ => " " +:+ join " " l end.
Proof.
destruct l as [|y l]; simpl; [|done].
induction x as [|a x IH]; [done|]. rewrite append_cons. by rewrite <- IH.
Qed.

Lemma join_plain_names_inj (l1 : list string) :
forall l2,
  Forall plain_name l1 -> Forall plain_name l2 ->
  join " " l1 = join " " l2 -> l1 = l2.
Proof.
induction l1 as [|x l1 IH]; intros [|y l2] H1 H2.
- done.
- rewrite join_cons. apply Forall_cons in H2 as [[Hy _] _].
  destruct y; [done|]. rewrite append_cons. discriminate.
- rewrite join_cons. apply Forall_cons in H1 as [[Hx _] _].
  destruct x; [done|]. rewrite append_cons. discriminate.
- rewrite !join_cons. intros Heq.
  apply Forall_cons in H1 as [[_ Hx] H1]. apply Forall_cons in H2 as [[_ Hy] H2].
  apply name_is_cut_at_space in Heq as [-> Hrest]; [| done | done | |].
  + f_equal. destruct l1 as [|x1 l1], l2 as [|y2 l2]; try done.
    apply IH; [done|done|]. by injection Hrest.
  + destruct l1; [by left | right; eexists; reflexivity].
  + destruct l2; [by left | right; eexists; reflexivity].
Qed.

Variable STANDARD_5_0 : LinuxBuildImage.
Variable asset : Asset.

Lemma REPOSITORY_NAMES_value (props : FullRegionS3CodeCommitBackupProps) :
REPOSITORY_NAMES STANDARD_5_0 asset props
= Some (join " " (default [] (repositoryNames props))).
Proof.
unfold REPOSITORY_NAMES, construct. simpl.
rewrite lookup_insert_ne by done. by rewrite lookup_insert_eq.
Qed.

(** X12. The project's [REPOSITORY_NAMES] variable is empty when no
  repository names are given (none, or an empty list), and otherwise
  determines them: two lists of names, none empty or containing a
  space, that give the same variable are the same list. *)
Theorem repository_names_variable_determines_the_names
  (props1 props2 : FullRegionS3CodeCommitBackupProps) (names1 names2 : list string) :
(repositoryNames props1 = None \/ repositoryNames props1 = Some [] ->
 REPOSITORY_NAMES STANDARD_5_0 asset props1 = Some "")
/\ (repositoryNames props1 = Some names1 ->
    repositoryNames props2 = Some names2 ->
    Forall plain_name names1 -> Forall plain_name names2 ->
    REPOSITORY_NAMES STANDARD_5_0 asset props1
    = REPOSITORY_NAMES STANDARD_5_0 asset props2 ->
    names1 = names2).
Proof.
rewrite !REPOSITORY_NAMES_value. split.
- by intros [-> | ->].
- intros -> -> H1 H2 [= Heq]. by apply join_plain_names_inj.
Qed.
End FullRegionBackupFacts.

Lemma repository_names_variable_determines_the_names_witness :
  FullRegionBackup.REPOSITORY_NAMES Stacks.image Stacks.scripts
    (Stacks.backup_of ["shop"; "billing"]) = Some "shop billing"
  /\ (FullRegionBackup.REPOSITORY_NAMES Stacks.image Stacks.scripts
        (Stacks.backup_of []) = Some ""
      /\ ["shop"; "billing"] = ["shop"; "billing"]).
Proof.
  split; [vm_compute; reflexivity|].
  destruct (repository_names_variable_determines_the_names Stacks.image Stacks.scripts
              (Stacks.backup_of []) (Stacks.backup_of [])
              [] []) as [Hempty _].
  destruct (repository_names_variable_determines_the_names Stacks.image Stacks.scripts
              (Stacks.backup_of ["shop"; "billing"])
              (Stacks.backup_of ["shop"; "billing"])
              ["shop"; "billing"] ["shop"; "billing"]) as [_ Hsame].
  split.
  - apply Hempty. right. reflexivity.
  - apply Hsame; try reflexivity;
      repeat constructor; discriminate.
Defined.

(** ** Dependency check *)

Section DependencyCheckFacts.
Import Cdk DependencyCheck.
Variable number : Type.
Variable zero : number.
Variable cli_version : string.
Variable cli_scan : ScanProps number -> string.
Variable STANDARD_2_0 : LinuxBuildImage.

Abbreviation check := (construct number zero cli_version cli_scan STANDARD_2_0).

Lemma finally_commands_value (props : CodeCommitDependencyCheckProps number) :
finally_commands (check props)
= Some (strings
          [ "echo " +:+ quoted "[===== Upload reports =====]";
            "dt=$(date -u '+%Y_%m_%d_%H_%M')";
            match reportsBucket number props with
            | Some reportsBucket =>
                "aws s3 cp reports/dependency-check-report.html s3://"
                +:+ bucketName reportsBucket +:+ "/"
                +:+ repositoryName (repository number props) +:+ "/${dt}_UTC/"
            | None => "echo " +:+ quoted "No reportsBuckets"
            end ]).
Proof. reflexivity. Qed.

(** X13. The write grant and the upload go together: with a reports
  bucket the project is granted write access to exactly that bucket and
  the last command of the build's [finally] block copies the HTML report
  to that bucket, under the repository's name; without one the project
  is granted no write access and the command only echoes. *)
Theorem reports_upload_and_write_grant_agree
  (props : CodeCommitDependencyCheckProps number) :
match reportsBucket number props with
| Some bucket =>
    writeGrants (check props) = [bucket]
    /\ exists first second,
        finally_commands (check props)
        = Some (VArr [first; second;
                      VStr ("aws s3 cp reports/dependency-check-report.html s3://"
                            +:+ bucketName bucket +:+ "/"
                            +:+ repositoryName (repository number props)
                            +:+ "/${dt}_UTC/")])
| None =>
    writeGrants (check props) = []
    /\ exists first second,
        finally_commands (check props)
        = Some (VArr [first; second; VStr ("echo " +:+ quoted "No reportsBuckets")])
end.
Proof.
rewrite finally_commands_value.
destruct (reportsBucket number props) as [bucket|] eqn:Hbucket;
  unfold construct; simpl; rewrite Hbucket; split; try reflexivity;
  eexists _, _; reflexivity.
Qed.

Lemma present_default_idem (d : string) (o : option string) :
default d (present (Some (default d o))) = default d (present o).
Proof.
destruct o as [s|]; simpl.
- by destruct (String.eqb s "").
- by destruct (String.eqb d "").
Qed.

Lemma scan_props_with_documented_defaults
  (props : CodeCommitDependencyCheckProps number) :
scan_props number zero (with_documented_defaults number zero STANDARD_2_0 props)
= scan_props number zero props.
Proof.
unfold scan_props, with_documented_defaults. simpl.
f_equal. apply (present_default_idem _ (projectName number props)).
Qed.

(** X14. The defaults are the documented ones: leaving an option out
  declares exactly what passing its documented default declares
  (compute type of the build image, [echo "No preCheckCommand!"],
  version [5.3.2], the repository's name as project name, a CVSS
  threshold of 0, the path [.]). *)
Theorem omitted_options_are_the_documented_defaults
  (props : CodeCommitDependencyCheckProps number) :
check (with_documented_defaults number zero STANDARD_2_0 props) = check props.
Proof.
unfold construct. rewrite scan_props_with_documented_defaults.
destruct props as [repo sched ct pre ver pn cvss pths exc sup exp rb].
unfold with_documented_defaults, compute_type_or_default. simpl.
destruct ct as [c|]; simpl.
- by destruct (String.eqb c "").
- by destruct (String.eqb (defaultComputeType STANDARD_2_0) "").
Qed.

(** X15. The scan always gets a project name: the configured one, or the
  repository's name when none or an empty one is configured; so the
  name is not empty as long as the repository's is not.  The scan's
  base directory is the repository's name. *)
Theorem scan_always_has_a_project_name
  (props : CodeCommitDependencyCheckProps number) :
repositoryName (repository number props) <> "" ->
let scan := scan_props number zero props in
scan_projectName number scan <> ""
/\ (forall name, projectName number props = Some name -> name <> "" ->
      scan_projectName number scan = name)
/\ (projectName number props = None \/ projectName number props = Some "" ->
    scan_projectName number scan = repositoryName (repository number props))
/\ scan_basedir number scan = repositoryName (repository number props).
Proof.
intros Hname scan. unfold scan, scan_props. simpl. split_and!.
- destruct (projectName number props) as [name|]; simpl; [|done].
  destruct (String.eqb_spec name ""); simpl; done.
- intros name -> Hne. simpl. by destruct (String.eqb_spec name "").
- by intros [-> | ->].
- reflexivity.
Qed.
End DependencyCheckFacts.

Lemma scan_always_has_a_project_name_witness :
  let scan := DependencyCheck.scan_props Z 0%Z Stacks.bare_check in
  DependencyCheck.scan_projectName Z scan <> ""
  /\ (forall name,
        DependencyCheck.projectName Z Stacks.bare_check = Some name -> name <> "" ->
        DependencyCheck.scan_projectName Z scan = name)
  /\ (DependencyCheck.projectName Z Stacks.bare_check = None
      \/ DependencyCheck.projectName Z Stacks.bare_check = Some "" ->
      DependencyCheck.scan_projectName Z scan = "shop")
  /\ DependencyCheck.scan_basedir Z scan = "shop".
Proof.
  apply (scan_always_has_a_project_name Z 0%Z Stacks.bare_check).
  simpl. discriminate.
Defined.

(** The bare check of [shop], as declared. *)
Example bare_check_declares :
  let c := DependencyCheck.construct Z 0%Z "dependency-check.sh --version"
             Stacks.render_scan Stacks.image Stacks.bare_check in
  Cdk.computeType (Cdk.environment (DependencyCheck.checkProject c))
  = "BUILD_GENERAL1_SMALL"
  /\ Cdk.at_path ["phases"; "build"; "commands"]
       (Cdk.buildSpec (DependencyCheck.checkProject c))
     = Some (Cdk.strings
               [ "echo " +:+ Cdk.quoted "[===== Scan repository: shop =====]";
                 "echo " +:+ Cdk.quoted "[===== SHA: $SHA =====]";
                 "mkdir reports";
                 "dependency-check.sh --version";
                 "dependency-check.sh --project shop" ])
  /\ Cdk.at_path ["phases"; "install"; "commands"]
       (Cdk.buildSpec (DependencyCheck.checkProject c))
     ≫= (fun v => match v with VArr l => l !! 7%nat | _ => None end)
     = Some (VStr "unzip dependency-check-5.3.2-release.zip -d /opt")
  /\ DependencyCheck.rolePolicy c
     = [Cdk.read_statement ["arn:aws:codecommit:us-east-1:1:shop"]].
Proof. vm_compute. done. Qed.
